(** * The Pirate Weather provider of ha-wall-clock-card

    A shallow embedding of [src/weather-providers/pirateweather-provider.ts]
    and the properties of the provider that its specification states.

    The provider is TypeScript.  Numbers are IEEE-754 doubles ([float]),
    object literals used as lookup tables are finite maps over strings
    ([gmap string]) that inherit from %Object.prototype%, the operator [||]
    chooses by truthiness, and a failing operation throws. *)

From Stdlib Require Import Floats DecimalString.
From Stdlib Require QArith.
From stdpp Require Import gmap strings list.

Open Scope string_scope.

(** ** The fragment of ECMAScript the provider relies on *)

Module JS.

(** *** Truthiness (ToBoolean) *)

(** A string is falsy exactly when it is empty. *)
Definition string_truthy (s : string) : bool :=
  match s with
  | EmptyString => false
  | String _ _ => true
  end.

(** A number is falsy exactly when it is [+0], [-0] or [NaN]. *)
Definition number_truthy (x : float) : bool :=
  negb (PrimFloat.is_zero x || PrimFloat.is_nan x).

(** A property that may be absent reads as [undefined], which is falsy. *)
Definition truthy {A : Type} (is_truthy : A -> bool) (v : option A) : bool :=
  match v with
  | Some a => is_truthy a
  | None => false
  end.

(** [a || b] on operands that may be [undefined]. *)
Definition logical_or {A : Type} (is_truthy : A -> bool) (a b : option A) : option A :=
  if truthy is_truthy a then a else b.

(** [a || b] where [b] is a defined value. *)
Definition logical_or_else {A : Type} (is_truthy : A -> bool) (a : option A) (b : A) : A :=
  match a with
  | Some x => if is_truthy x then x else b
  | None => b
  end.

(** [`${v}`] in a template literal. *)
Definition interpolate {A : Type} (to_string : A -> string) (v : option A) : string :=
  match v with
  | Some a => to_string a
  | None => "undefined"
  end.

(** *** Property lookup on an object literal *)

(** The properties every object literal inherits from %Object.prototype%.
    Each of them is a function or an object, hence truthy. *)
Definition Object_prototype : gset string :=
  list_to_set
    [ "constructor"; "hasOwnProperty"; "isPrototypeOf";
      "propertyIsEnumerable"; "toLocaleString"; "toString"; "valueOf";
      "__proto__"; "__defineGetter__"; "__defineSetter__";
      "__lookupGetter__"; "__lookupSetter__" ].

(** What [o[key]] evaluates to, for an object literal [o] whose own
    properties all hold values of type [A]. *)
Inductive property (A : Type) : Type :=
| Own (a : A)
| Inherited (name : string)
| Undefined.
Arguments Own {A} a.
Arguments Inherited {A} name.
Arguments Undefined {A}.

Definition get {A : Type} (o : gmap string A) (key : string) : property A :=
  match o !! key with
  | Some a => Own a
  | None =>
      if bool_decide (key ∈ Object_prototype) then Inherited key else Undefined
  end.

(** The value of [o[key] || fallback]: a value of the table's type, or
    one of the members of %Object.prototype%. *)
Inductive value (A : Type) : Type :=
| Val (a : A)
| Builtin (name : string).
Arguments Val {A} a.
Arguments Builtin {A} name.

Definition get_or {A : Type} (is_truthy : A -> bool)
    (o : gmap string A) (key : string) (fallback : A) : value A :=
  match get o key with
  | Own a => if is_truthy a then Val a else Val fallback
  | Inherited name => Builtin name
  | Undefined => Val fallback
  end.

(** *** Exceptions *)

(** What a [catch] clause can tell about the value it caught: an
    instance of [Error] with its message, or anything else. *)
Inductive thrown : Type :=
| new_Error (message : string)
| not_an_Error.

Inductive completion (A : Type) : Type :=
| Return (a : A)
| Throw (e : thrown).
Arguments Return {A} a.
Arguments Throw {A} e.

Definition bind {A B : Type} (c : completion A) (k : A -> completion B)
    : completion B :=
  match c with
  | Return a => k a
  | Throw e => Throw e
  end.

(** [try { body } catch (error) { throw handler(error) }] *)
Definition try_catch_rethrow {A : Type} (body : completion A)
    (handler : thrown -> thrown) : completion A :=
  match body with
  | Return a => Return a
  | Throw e => Throw (handler e)
  end.

(** [new Date(value)] *)
Inductive Date : Type :=
| new_Date (value : float).

(** ToString of a non-negative integral number: its decimal digits. *)
Definition integer_to_string (n : N) : string :=
  NilZero.string_of_uint (N.to_uint n).

(** [s.includes(t)] *)
Definition includes (s t : string) : Prop :=
  exists before after, s = before ++ t ++ after.

(** [s.startsWith(t)] *)
Definition startsWith (s t : string) : Prop :=
  exists rest, s = t ++ rest.

End JS.

Import JS.

#[global] Instance completion_bind : MBind completion :=
  fun A B k c => bind c k.
#[global] Instance completion_ret : MRet completion :=
  fun A a => Return a.

(** ** Data model *)

(** Modelled from the spec: the enum [Weather] of [../image-sources], which
    is not among the sources.  Its members are the condition codes the spec
    lists and the provider refers to. *)
Inductive Weather : Type :=
| All
| Sunny
| ClearNight
| Rainy
| Snowy
| Windy
| Foggy
| Cloudy
| PartlyCloudy
| PartlyCloudyNight
| Hail
| Lightning
| Exceptional.

(** The vendor's records, as the interfaces of the source declare them.  A
    field marked optional, or one the provider guards with [||], may be
    absent. *)
Module PirateWeatherCurrently.
Record t : Type := {
  time : float;
  summary : string;
  icon : string;
  temperature : float;
  apparentTemperature : float;
  humidity : float;
  pressure : float;
  windSpeed : float;
  windGust : option float;
  windBearing : float;
  cloudCover : float;
  uvIndex : float;
  visibility : float
}.
End PirateWeatherCurrently.

Module PirateWeatherDaily.
Record t : Type := {
  time : float;
  summary : string;
  icon : string;
  temperatureHigh : option float;
  temperatureLow : option float;
  temperatureMax : option float;
  temperatureMin : option float;
  apparentTemperatureHigh : float;
  apparentTemperatureLow : float;
  humidity : float;
  pressure : float;
  windSpeed : float;
  windGust : option float;
  windBearing : float;
  cloudCover : float;
  uvIndex : float
}.
End PirateWeatherDaily.

(** A parsed body is only cast to [PirateWeatherResponse]: the objects
    that [transformResponse] dereferences may be missing from it. *)
Module PirateWeatherResponse.
Record daily_t : Type := {
  summary : string;
  icon : string;
  data : option (list PirateWeatherDaily.t)
}.
Record t : Type := {
  latitude : float;
  longitude : float;
  timezone : string;
  currently : option PirateWeatherCurrently.t;
  daily : option daily_t
}.
End PirateWeatherResponse.

(** The provider's configuration, with the fields the provider reads. *)
Module WeatherProviderConfig.
Record t : Type := {
  apiKey : option string;
  latitude : option float;
  longitude : option float;
  units : option string
}.
End WeatherProviderConfig.

(** The unified records: the object literals that [transformResponse] and
    [transformDailyWeather] build. *)
Module CurrentWeather.
Record t : Type := {
  temperature : float;
  feelsLike : float;
  condition : string;
  conditionUnified : value Weather;
  icon : value string;
  humidity : float;
  pressure : float;
  windSpeed : float;
  windGust : option float;
  windBearing : float;
  cloudCover : float;
  uvIndex : float;
  visibility : float
}.
End CurrentWeather.

Module DailyWeather.
Record t : Type := {
  date : Date;
  temperatureMax : option float;
  temperatureMin : option float;
  condition : string;
  conditionUnified : value Weather;
  icon : value string;
  humidity : float;
  pressure : float;
  windSpeed : float;
  windGust : option float;
  windBearing : float;
  cloudCover : float;
  uvIndex : float
}.
End DailyWeather.

Module Location.
Record t : Type := {
  latitude : float;
  longitude : float;
  timezone : string
}.
End Location.

Module WeatherData.
Record t : Type := {
  current : CurrentWeather.t;
  daily : list DailyWeather.t;
  location : Location.t;
  units : value string
}.
End WeatherData.

(** What [fetch] resolves with.  [json] is the outcome of reading and
    parsing the body. *)
Module Response.
Record t : Type := {
  status : N;
  statusText : string;
  json : completion PirateWeatherResponse.t
}.
(** [ok] holds exactly for a status from 200 to 299. *)
Definition ok (response : t) : bool :=
  ((200 <=? status response) && (status response <=? 299))%N.
End Response.

(** ** The provider: the methods of class [PirateWeatherProvider] *)

Module PirateWeatherProvider.

Section Provider.

(** The run-time value of an enum member is a string or a number fixed
    by the enum's declaration; the provider only tests it for
    truthiness. *)
Variable Weather_truthy : Weather -> bool.

(** *** [mapIconToCondition] *)

Definition iconMap : gmap string Weather :=
  list_to_map
    [ ("clear-day", Sunny);
      ("clear-night", ClearNight);
      ("rain", Rainy);
      ("snow", Snowy);
      ("sleet", Snowy);
      ("wind", Windy);
      ("fog", Foggy);
      ("cloudy", Cloudy);
      ("partly-cloudy-day", PartlyCloudy);
      ("partly-cloudy-night", PartlyCloudyNight);
      ("hail", Hail);
      ("thunderstorm", Lightning);
      ("tornado", Exceptional) ].

Definition mapIconToCondition (icon : string) : value Weather :=
  get_or Weather_truthy iconMap icon All.

(** *** [getIconUrl] *)

Definition baseIconUrl : string :=
  "https://raw.githubusercontent.com/manifestinteractive/weather-underground-icons/master/dist/icons/white/png/64x64".

Definition iconMapping : gmap string string :=
  list_to_map
    [ ("clear-day", baseIconUrl ++ "/clear.png");
      ("clear-night", baseIconUrl ++ "/nt_clear.png");
      ("rain", baseIconUrl ++ "/rain.png");
      ("snow", baseIconUrl ++ "/snow.png");
      ("sleet", baseIconUrl ++ "/sleet.png");
      ("wind", baseIconUrl ++ "/wind.png");
      ("fog", baseIconUrl ++ "/fog.png");
      ("cloudy", baseIconUrl ++ "/cloudy.png");
      ("partly-cloudy-day", baseIconUrl ++ "/partlycloudy.png");
      ("partly-cloudy-night", baseIconUrl ++ "/nt_partlycloudy.png");
      ("hail", baseIconUrl ++ "/sleet.png");
      ("thunderstorm", baseIconUrl ++ "/tstorms.png");
      ("tornado", baseIconUrl ++ "/tornado.png") ].

Definition getIconUrl (icon : string) : value string :=
  get_or string_truthy iconMapping icon (baseIconUrl ++ "/cloudy.png").

(** *** [formatCondition] *)

Definition formatCondition (summary : string) : string :=
  if string_truthy summary then summary else "Unknown".

(** *** [getUnitsDescription] *)

Definition unitsMap : gmap string string :=
  list_to_map
    [ ("us", "imperial");
      ("si", "metric");
      ("ca", "metric");
      ("uk2", "hybrid") ].

Definition getUnitsDescription (units : string) : value string :=
  get_or string_truthy unitsMap units "imperial".

(** *** [transformDailyWeather] *)

Definition transformDailyWeather (day : PirateWeatherDaily.t) (units : string)
    : DailyWeather.t :=
  {| DailyWeather.date := new_Date (PirateWeatherDaily.time day * 1000)%float;
     DailyWeather.temperatureMax :=
       logical_or number_truthy (PirateWeatherDaily.temperatureMax day)
                        (PirateWeatherDaily.temperatureHigh day);
     DailyWeather.temperatureMin :=
       logical_or number_truthy (PirateWeatherDaily.temperatureMin day)
                        (PirateWeatherDaily.temperatureLow day);
     DailyWeather.condition := formatCondition (PirateWeatherDaily.summary day);
     DailyWeather.conditionUnified := mapIconToCondition (PirateWeatherDaily.icon day);
     DailyWeather.icon := getIconUrl (PirateWeatherDaily.icon day);
     DailyWeather.humidity := (PirateWeatherDaily.humidity day * 100)%float;
     DailyWeather.pressure := PirateWeatherDaily.pressure day;
     DailyWeather.windSpeed := PirateWeatherDaily.windSpeed day;
     DailyWeather.windGust := PirateWeatherDaily.windGust day;
     DailyWeather.windBearing := PirateWeatherDaily.windBearing day;
     DailyWeather.cloudCover := (PirateWeatherDaily.cloudCover day * 100)%float;
     DailyWeather.uvIndex := PirateWeatherDaily.uvIndex day |}.

(** *** [transformResponse] *)

(** The message of the [TypeError] the engine throws when property [name]
    is read from [undefined]. *)
Variable TypeError_message : string -> string.

(** [o.name], where [o] may be [undefined]. *)
Definition read {A B : Type} (o : option A) (name : string) (field : A -> B)
    : completion B :=
  match o with
  | Some a => Return (field a)
  | None => Throw (new_Error (TypeError_message name))
  end.

Definition transformResponse (data : PirateWeatherResponse.t) (units : string)
    : completion WeatherData.t :=
  let currently := PirateWeatherResponse.currently data in
  daily ← read (PirateWeatherResponse.daily data) "data" PirateWeatherResponse.data;
  (* [currently.icon] is the first property read from [currently] *)
  currently ← read currently "icon" id;
  let conditionUnified := mapIconToCondition (PirateWeatherCurrently.icon currently) in
  let currentIcon := getIconUrl (PirateWeatherCurrently.icon currently) in
  days ← read daily "slice"
    (fun daily => (fun day => transformDailyWeather day units) <$> take 7 daily);
  mret
    {| WeatherData.current :=
         {| CurrentWeather.temperature := PirateWeatherCurrently.temperature currently;
            CurrentWeather.feelsLike := PirateWeatherCurrently.apparentTemperature currently;
            CurrentWeather.condition :=
              formatCondition (PirateWeatherCurrently.summary currently);
            CurrentWeather.conditionUnified := conditionUnified;
            CurrentWeather.icon := currentIcon;
            CurrentWeather.humidity := (PirateWeatherCurrently.humidity currently * 100)%float;
            CurrentWeather.pressure := PirateWeatherCurrently.pressure currently;
            CurrentWeather.windSpeed := PirateWeatherCurrently.windSpeed currently;
            CurrentWeather.windGust := PirateWeatherCurrently.windGust currently;
            CurrentWeather.windBearing := PirateWeatherCurrently.windBearing currently;
            CurrentWeather.cloudCover := (PirateWeatherCurrently.cloudCover currently * 100)%float;
            CurrentWeather.uvIndex := PirateWeatherCurrently.uvIndex currently;
            CurrentWeather.visibility := PirateWeatherCurrently.visibility currently |};
       WeatherData.daily := days;
       WeatherData.location :=
         {| Location.latitude := PirateWeatherResponse.latitude data;
            Location.longitude := PirateWeatherResponse.longitude data;
            Location.timezone := PirateWeatherResponse.timezone data |};
       WeatherData.units := getUnitsDescription units |}.

(** *** [getDefaultConfig] *)

Definition getDefaultConfig : WeatherProviderConfig.t :=
  {| WeatherProviderConfig.apiKey := Some "";
     WeatherProviderConfig.latitude := Some 0%float;
     WeatherProviderConfig.longitude := Some 0%float;
     WeatherProviderConfig.units := Some "us" |}.

(** *** [fetchWeatherAsync] *)

(** ToString of a number, as a template literal applies it. *)
Variable Number_toString : float -> string.

(** The network: what [fetch(url)] settles with. *)
Variable fetch : string -> completion Response.t.

Definition baseUrl : string := "https://api.pirateweather.net/forecast".

(** The [catch] clause of [fetchWeatherAsync]: the error it throws for
    the value it caught. *)
Definition wrap (error : thrown) : thrown :=
  match error with
  | new_Error message => new_Error ("Failed to fetch Pirate Weather data: " ++ message)
  | not_an_Error => new_Error "Failed to fetch Pirate Weather data"
  end.

(** The result pairs the URLs requested from the network, in order, with
    what the returned promise settles with. *)
Definition fetchWeatherAsync (config : WeatherProviderConfig.t)
    : list string * completion WeatherData.t :=
  if negb (truthy string_truthy (WeatherProviderConfig.apiKey config)) then
    ([], Throw (new_Error "Pirate Weather API key is required"))
  else if negb (truthy number_truthy (WeatherProviderConfig.latitude config))
          || negb (truthy number_truthy (WeatherProviderConfig.longitude config)) then
    ([], Throw (new_Error "Latitude and longitude are required"))
  else
    let units := logical_or_else string_truthy (WeatherProviderConfig.units config) "us" in
    let url :=
      baseUrl ++ "/" ++ interpolate id (WeatherProviderConfig.apiKey config)
        ++ "/" ++ interpolate Number_toString (WeatherProviderConfig.latitude config)
        ++ "," ++ interpolate Number_toString (WeatherProviderConfig.longitude config)
        ++ "?units=" ++ units in
    ([url],
     try_catch_rethrow
       (response ← fetch url;
        if negb (Response.ok response) then
          Throw (new_Error ("Pirate Weather API error: "
                              ++ integer_to_string (Response.status response)
                              ++ " " ++ Response.statusText response))
        else
          data ← Response.json response;
          transformResponse data units)
       wrap).

End Provider.

End PirateWeatherProvider.

Import PirateWeatherProvider.

(** ** A sample exchange

    The sample response of the specification's end-to-end property, and the
    environment it is evaluated in. *)

Module Sample.

Definition Weather_truthy (condition : Weather) : bool := true.

Definition TypeError_message (name : string) : string :=
  "Cannot read properties of undefined (reading '" ++ name ++ "')".

(** ToString on the two coordinates of the sample. *)
Definition Number_toString (x : float) : string :=
  if (x =? 40)%float then "40" else "-105".

Definition config : WeatherProviderConfig.t :=
  {| WeatherProviderConfig.apiKey := Some "test-key";
     WeatherProviderConfig.latitude := Some 40%float;
     WeatherProviderConfig.longitude := Some (-105)%float;
     WeatherProviderConfig.units := Some "us" |}.

Definition url : string :=
  "https://api.pirateweather.net/forecast/test-key/40,-105?units=us".

Definition currently : PirateWeatherCurrently.t :=
  {| PirateWeatherCurrently.time := 1700000000%float;
     PirateWeatherCurrently.summary := "Clear";
     PirateWeatherCurrently.icon := "clear-day";
     PirateWeatherCurrently.temperature := 72%float;
     PirateWeatherCurrently.apparentTemperature := 70%float;
     PirateWeatherCurrently.humidity := 0.5%float;
     PirateWeatherCurrently.pressure := 1013%float;
     PirateWeatherCurrently.windSpeed := 5%float;
     PirateWeatherCurrently.windGust := None;
     PirateWeatherCurrently.windBearing := 180%float;
     PirateWeatherCurrently.cloudCover := 0.25%float;
     PirateWeatherCurrently.uvIndex := 3%float;
     PirateWeatherCurrently.visibility := 10%float |}.

(** A day that starts [n] days after the first one, with the given
    maximum and high temperatures. *)
Definition day (n : float) (temperatureMax temperatureHigh : option float)
    : PirateWeatherDaily.t :=
  {| PirateWeatherDaily.time := (1700000000 + n * 86400)%float;
     PirateWeatherDaily.summary := "";
     PirateWeatherDaily.icon := "rain";
     PirateWeatherDaily.temperatureHigh := temperatureHigh;
     PirateWeatherDaily.temperatureLow := Some 38%float;
     PirateWeatherDaily.temperatureMax := temperatureMax;
     PirateWeatherDaily.temperatureMin := Some 40%float;
     PirateWeatherDaily.apparentTemperatureHigh := 73%float;
     PirateWeatherDaily.apparentTemperatureLow := 39%float;
     PirateWeatherDaily.humidity := 0.5%float;
     PirateWeatherDaily.pressure := 1010%float;
     PirateWeatherDaily.windSpeed := 6%float;
     PirateWeatherDaily.windGust := Some 11%float;
     PirateWeatherDaily.windBearing := 90%float;
     PirateWeatherDaily.cloudCover := 0.75%float;
     PirateWeatherDaily.uvIndex := 2%float |}.

(** Eight days; the fourth has a maximum of zero degrees, the fifth has
    none. *)
Definition days : list PirateWeatherDaily.t :=
  [ day 0 (Some 75%float) (Some 74%float);
    day 1 (Some 71%float) (Some 70%float);
    day 2 (Some 68%float) (Some 66%float);
    day 3 (Some 0%float) (Some 5%float);
    day 4 None (Some 61%float);
    day 5 (Some 64%float) (Some 63%float);
    day 6 (Some 69%float) (Some 67%float);
    day 7 (Some 73%float) (Some 72%float) ].

Definition body : PirateWeatherResponse.t :=
  {| PirateWeatherResponse.latitude := 40%float;
     PirateWeatherResponse.longitude := (-105)%float;
     PirateWeatherResponse.timezone := "America/Denver";
     PirateWeatherResponse.currently := Some currently;
     PirateWeatherResponse.daily :=
       Some {| PirateWeatherResponse.summary := "Rain through the week";
               PirateWeatherResponse.icon := "rain";
               PirateWeatherResponse.data := Some days |} |}.

(** A body that parses but lacks the [currently] object. *)
Definition body_without_currently : PirateWeatherResponse.t :=
  {| PirateWeatherResponse.latitude := 40%float;
     PirateWeatherResponse.longitude := (-105)%float;
     PirateWeatherResponse.timezone := "America/Denver";
     PirateWeatherResponse.currently := None;
     PirateWeatherResponse.daily := PirateWeatherResponse.daily body |}.

(** Networks that answer every request alike. *)
Definition fetch_ok (url : string) : completion Response.t :=
  Return {| Response.status := 200; Response.statusText := "OK";
            Response.json := Return body |}.

Definition fetch_unauthorized (url : string) : completion Response.t :=
  Return {| Response.status := 401; Response.statusText := "Unauthorized";
            Response.json := Return body |}.

Definition fetch_malformed (url : string) : completion Response.t :=
  Return {| Response.status := 200; Response.statusText := "OK";
            Response.json := Throw (new_Error "Unexpected token < in JSON at position 0") |}.

Definition fetch_misshapen (url : string) : completion Response.t :=
  Return {| Response.status := 200; Response.statusText := "OK";
            Response.json := Return body_without_currently |}.

End Sample.

(** ** The number a double stands for *)

Module Exact.

(** The rational number that a finite double denotes: its signed
    mantissa times a power of two.  Infinities and NaN denote none. *)
Definition value (x : float) : option QArith_base.Q :=
  match Prim2SF x with
  | S754_zero _ => Some (QArith_base.inject_Z 0)
  | S754_finite negative mantissa exponent =>
      Some (QArith_base.Qmult
              (QArith_base.inject_Z
                 (if negative then Z.neg mantissa else Z.pos mantissa))
              (QArith_base.Qpower (QArith_base.inject_Z 2) exponent))
  | S754_infinity _ | S754_nan => None
  end.

(** The double nearest to 0.07, a humidity of seven percent. *)
Definition seven_percent : float := 0x1.1eb851eb851ecp-4%float.

(** The sample response on a day of seven percent humidity. *)
Definition body : PirateWeatherResponse.t :=
  {| PirateWeatherResponse.latitude := 40%float;
     PirateWeatherResponse.longitude := (-105)%float;
     PirateWeatherResponse.timezone := "America/Denver";
     PirateWeatherResponse.currently :=
       Some {| PirateWeatherCurrently.time := 1700000000%float;
               PirateWeatherCurrently.summary := "Clear";
               PirateWeatherCurrently.icon := "clear-day";
               PirateWeatherCurrently.temperature := 72%float;
               PirateWeatherCurrently.apparentTemperature := 70%float;
               PirateWeatherCurrently.humidity := seven_percent;
               PirateWeatherCurrently.pressure := 1013%float;
               PirateWeatherCurrently.windSpeed := 5%float;
               PirateWeatherCurrently.windGust := None;
               PirateWeatherCurrently.windBearing := 180%float;
               PirateWeatherCurrently.cloudCover := 0.25%float;
               PirateWeatherCurrently.uvIndex := 3%float;
               PirateWeatherCurrently.visibility := 10%float |};
     PirateWeatherResponse.daily := PirateWeatherResponse.daily Sample.body |}.

End Exact.

(** * Properties *)

(** ** Property lookup *)

Section Lookup.

Context {A : Type} (is_truthy : A -> bool) (o : gmap string A) (fallback : A).

Lemma get_or_own key a :
  o !! key = Some a -> is_truthy a = true -> get_or is_truthy o key fallback = Val a.
Proof. intros Hkey Ha. unfold get_or, get. now rewrite Hkey, Ha. Qed.

Lemma get_or_inherited key :
  o !! key = None -> key ∈ Object_prototype ->
  get_or is_truthy o key fallback = Builtin key.
Proof.
  intros Hkey Hin. unfold get_or, get. rewrite Hkey.
  now rewrite bool_decide_eq_true_2.
Qed.

Lemma get_or_undefined key :
  o !! key = None -> key ∉ Object_prototype ->
  get_or is_truthy o key fallback = Val fallback.
Proof.
  intros Hkey Hin. unfold get_or, get. rewrite Hkey.
  now rewrite bool_decide_eq_false_2.
Qed.

(** Whatever the key, the lookup yields a value: a truthy entry of the
    table, the fallback, or an inherited member. *)
Lemma get_or_cases key :
  (exists a, o !! key = Some a /\ is_truthy a = true
             /\ get_or is_truthy o key fallback = Val a)
  \/ get_or is_truthy o key fallback = Val fallback
  \/ (key ∈ Object_prototype /\ get_or is_truthy o key fallback = Builtin key).
Proof.
  unfold get_or, get. destruct (o !! key) as [a|] eqn:Hkey.
  - destruct (is_truthy a) eqn:Ha; eauto.
  - case_bool_decide; eauto.
Qed.

End Lookup.

Lemma Object_prototype_names key :
  key ∈ Object_prototype ->
  key ∈ [ "constructor"; "hasOwnProperty"; "isPrototypeOf";
          "propertyIsEnumerable"; "toLocaleString"; "toString"; "valueOf";
          "__proto__"; "__defineGetter__"; "__defineSetter__";
          "__lookupGetter__"; "__lookupSetter__" ].
Proof. unfold Object_prototype. now rewrite elem_of_list_to_set. Qed.

(** No table of the provider has an own property named like a member of
    %Object.prototype%. *)
Lemma tables_inherit key :
  key ∈ Object_prototype ->
  iconMap !! key = None /\ iconMapping !! key = None /\ unitsMap !! key = None.
Proof.
  intros Hin. apply Object_prototype_names in Hin.
  repeat (apply elem_of_cons in Hin as [->|Hin]; [by vm_compute|]).
  by apply elem_of_nil in Hin.
Qed.

(** ** The lookup tables *)

Section Tables.

Variable Weather_truthy : Weather -> bool.

(** Every code of the condition table maps to the condition listed for
    it, provided the run-time value of that enum member is truthy. *)
Lemma mapIconToCondition_table icon condition :
  (icon, condition) ∈
    [ ("clear-day", Sunny); ("clear-night", ClearNight); ("rain", Rainy);
      ("snow", Snowy); ("sleet", Snowy); ("wind", Windy); ("fog", Foggy);
      ("cloudy", Cloudy); ("partly-cloudy-day", PartlyCloudy);
      ("partly-cloudy-night", PartlyCloudyNight); ("hail", Hail);
      ("thunderstorm", Lightning); ("tornado", Exceptional) ] ->
  Weather_truthy condition = true ->
  mapIconToCondition Weather_truthy icon = Val condition.
Proof.
  intros Hin Htruthy. apply get_or_own; [|done].
  repeat (apply elem_of_cons in Hin as [[= -> ->]|Hin]; [by vm_compute|]).
  by apply elem_of_nil in Hin.
Qed.

(** A string that is neither in the condition table nor the name of an
    inherited member maps to [All]. *)
Lemma mapIconToCondition_fallback icon :
  iconMap !! icon = None -> icon ∉ Object_prototype ->
  mapIconToCondition Weather_truthy icon = Val All.
Proof. apply get_or_undefined. Qed.

(** The name of an inherited member maps to that member. *)
Lemma mapIconToCondition_inherited icon :
  icon ∈ Object_prototype ->
  mapIconToCondition Weather_truthy icon = Builtin icon.
Proof. intros Hin. apply get_or_inherited; [by apply tables_inherit|done]. Qed.

(** C1, at the input where the code departs from it.  The string
    ["constructor"] is not a code of the condition table, yet
    [mapIconToCondition] does not map it to [All]: the lookup finds the
    member [constructor] that the table inherits from %Object.prototype%,
    which is truthy, and returns it. *)
Theorem mapIconToCondition_constructor :
  iconMap !! "constructor" = None
  /\ mapIconToCondition Weather_truthy "constructor" = Builtin "constructor"
  /\ mapIconToCondition Weather_truthy "constructor" <> Val All.
Proof.
  split; [by vm_compute|].
  rewrite mapIconToCondition_inherited; [done|by vm_compute].
Qed.

(** Every code of the icon table maps to its image. *)
Lemma getIconUrl_table icon file :
  (icon, file) ∈
    [ ("clear-day", "/clear.png"); ("clear-night", "/nt_clear.png");
      ("rain", "/rain.png"); ("snow", "/snow.png"); ("sleet", "/sleet.png");
      ("wind", "/wind.png"); ("fog", "/fog.png"); ("cloudy", "/cloudy.png");
      ("partly-cloudy-day", "/partlycloudy.png");
      ("partly-cloudy-night", "/nt_partlycloudy.png"); ("hail", "/sleet.png");
      ("thunderstorm", "/tstorms.png"); ("tornado", "/tornado.png") ] ->
  getIconUrl icon = Val (baseIconUrl ++ file).
Proof.
  intros Hin.
  repeat (apply elem_of_cons in Hin as [[= -> ->]|Hin]; [by vm_compute|]).
  by apply elem_of_nil in Hin.
Qed.

(** A string that is neither in the icon table nor the name of an
    inherited member maps to the cloudy image. *)
Lemma getIconUrl_fallback icon :
  iconMapping !! icon = None -> icon ∉ Object_prototype ->
  getIconUrl icon = Val (baseIconUrl ++ "/cloudy.png").
Proof. apply get_or_undefined. Qed.

(** The fallback image is a non-empty string. *)
Lemma getIconUrl_fallback_truthy :
  string_truthy (baseIconUrl ++ "/cloudy.png") = true.
Proof. reflexivity. Qed.

Lemma getIconUrl_inherited icon :
  icon ∈ Object_prototype -> getIconUrl icon = Builtin icon.
Proof. intros Hin. apply get_or_inherited; [by apply tables_inherit|done]. Qed.

(** C9, at the input where the code departs from it.  The string
    ["constructor"] is not a code of the icon table, yet [getIconUrl] does
    not return the cloudy image for it, nor any string: it returns the
    member [constructor] inherited from %Object.prototype%. *)
Theorem getIconUrl_constructor :
  iconMapping !! "constructor" = None
  /\ getIconUrl "constructor" = Builtin "constructor"
  /\ getIconUrl "constructor" <> Val (baseIconUrl ++ "/cloudy.png").
Proof.
  split; [by vm_compute|].
  rewrite getIconUrl_inherited; [done|by vm_compute].
Qed.

(** The two fallbacks differ in kind: an unknown code has the condition
    [All] and the image of [cloudy], whose condition is [Cloudy]. *)
Lemma fallbacks_diverge icon :
  iconMap !! icon = None -> iconMapping !! icon = None ->
  icon ∉ Object_prototype -> Weather_truthy Cloudy = true ->
  getIconUrl icon = getIconUrl "cloudy"
  /\ mapIconToCondition Weather_truthy icon <> mapIconToCondition Weather_truthy "cloudy".
Proof.
  intros Hcondition Hicon Hproto Htruthy.
  rewrite getIconUrl_fallback, mapIconToCondition_fallback by done.
  rewrite (mapIconToCondition_table "cloudy" Cloudy); [done| |done].
  set_solver.
Qed.

(** Every code of the units table maps to its label. *)
Lemma getUnitsDescription_table units label :
  (units, label) ∈
    [ ("us", "imperial"); ("si", "metric"); ("ca", "metric"); ("uk2", "hybrid") ] ->
  getUnitsDescription units = Val label.
Proof.
  intros Hin.
  repeat (apply elem_of_cons in Hin as [[= -> ->]|Hin]; [by vm_compute|]).
  by apply elem_of_nil in Hin.
Qed.

(** A string that is neither in the units table nor the name of an
    inherited member maps to ["imperial"]. *)
Lemma getUnitsDescription_fallback units :
  unitsMap !! units = None -> units ∉ Object_prototype ->
  getUnitsDescription units = Val "imperial".
Proof. apply get_or_undefined. Qed.

Lemma getUnitsDescription_inherited units :
  units ∈ Object_prototype -> getUnitsDescription units = Builtin units.
Proof. intros Hin. apply get_or_inherited; [by apply tables_inherit|done]. Qed.

(** C8, at the input where the code departs from it.  The string
    ["constructor"] is not a code of the units table, yet
    [getUnitsDescription] does not map it to ["imperial"]: it returns the
    member [constructor] inherited from %Object.prototype%. *)
Theorem getUnitsDescription_constructor :
  unitsMap !! "constructor" = None
  /\ getUnitsDescription "constructor" = Builtin "constructor"
  /\ getUnitsDescription "constructor" <> Val "imperial".
Proof.
  split; [by vm_compute|].
  rewrite getUnitsDescription_inherited; [done|by vm_compute].
Qed.

End Tables.

(** ** The transformation *)

Section Transform.

Variable Weather_truthy : Weather -> bool.
Variable TypeError_message : string -> string.

Abbreviation transformDailyWeather := (transformDailyWeather Weather_truthy).
Abbreviation transformResponse := (transformResponse Weather_truthy TypeError_message).

(** On a body that has the [currently] object and the [daily.data]
    array, the transformation returns, and these are its parts. *)
Lemma transformResponse_returns data units currently block days :
  PirateWeatherResponse.currently data = Some currently ->
  PirateWeatherResponse.daily data = Some block ->
  PirateWeatherResponse.data block = Some days ->
  exists weather,
    transformResponse data units = Return weather
    /\ CurrentWeather.humidity (WeatherData.current weather)
       = (PirateWeatherCurrently.humidity currently * 100)%float
    /\ CurrentWeather.cloudCover (WeatherData.current weather)
       = (PirateWeatherCurrently.cloudCover currently * 100)%float
    /\ CurrentWeather.conditionUnified (WeatherData.current weather)
       = mapIconToCondition Weather_truthy (PirateWeatherCurrently.icon currently)
    /\ WeatherData.daily weather
       = (fun day => transformDailyWeather day units) <$> take 7 days
    /\ WeatherData.units weather = getUnitsDescription units.
Proof.
  intros Hcurrently Hdaily Hdata. unfold transformResponse.
  rewrite Hcurrently, Hdaily. cbn. rewrite Hdata. cbn.
  eexists. split; [reflexivity|]. cbn. by repeat split.
Qed.

(** The body parts whose absence makes the transformation throw. *)
Lemma transformResponse_throws data units :
  PirateWeatherResponse.currently data = None
  \/ PirateWeatherResponse.daily data = None
  \/ (exists block, PirateWeatherResponse.daily data = Some block
                    /\ PirateWeatherResponse.data block = None) ->
  exists name, transformResponse data units = Throw (new_Error (TypeError_message name)).
Proof.
  intros Hmissing. unfold transformResponse.
  destruct (PirateWeatherResponse.daily data) as [block|] eqn:Hdaily; cbn; [|eauto].
  destruct (PirateWeatherResponse.currently data) eqn:Hcurrently; cbn; [|eauto].
  destruct (PirateWeatherResponse.data block) eqn:Hdata; cbn; [|eauto].
  destruct Hmissing as [|[|(? & [= <-] & ?)]]; congruence.
Qed.

(** C3, as amended.  The unified humidity and cloud cover are the
    double-precision products of the vendor's fractions and 100, as the
    source computes them, with nothing else applied: for the current
    block, and for every daily entry that the transformation keeps.  The
    fraction need not lie in [0,1]. *)
Theorem humidity_cloudCover_rescaled data units currently block days :
  PirateWeatherResponse.currently data = Some currently ->
  PirateWeatherResponse.daily data = Some block ->
  PirateWeatherResponse.data block = Some days ->
  exists weather,
    transformResponse data units = Return weather
    /\ CurrentWeather.humidity (WeatherData.current weather)
       = (PirateWeatherCurrently.humidity currently * 100)%float
    /\ CurrentWeather.cloudCover (WeatherData.current weather)
       = (PirateWeatherCurrently.cloudCover currently * 100)%float
    /\ forall i day,
         i < 7 -> days !! i = Some day ->
         exists unified,
           WeatherData.daily weather !! i = Some unified
           /\ DailyWeather.humidity unified
              = (PirateWeatherDaily.humidity day * 100)%float
           /\ DailyWeather.cloudCover unified
              = (PirateWeatherDaily.cloudCover day * 100)%float.
Proof.
  intros Hcurrently Hdaily Hdata.
  destruct (transformResponse_returns data units _ _ _ Hcurrently Hdaily Hdata)
    as (weather & Hreturn & Hhumidity & Hcloud & _ & Hdays & _).
  exists weather. repeat split; [done..|].
  intros i day Hi Hday. exists (transformDailyWeather day units).
  rewrite Hdays, list_lookup_fmap, lookup_take_lt, Hday by done.
  done.
Qed.

(** C4.  The unified daily sequence is the image of the first seven
    entries of the vendor's array, position by position: seven entries
    when the array has at least seven, all of them when it has fewer, and
    nothing from position seven on. *)
Theorem daily_first_seven data units currently block days :
  PirateWeatherResponse.currently data = Some currently ->
  PirateWeatherResponse.daily data = Some block ->
  PirateWeatherResponse.data block = Some days ->
  exists weather,
    transformResponse data units = Return weather
    /\ (7 <= length days -> length (WeatherData.daily weather) = 7)
    /\ (length days < 7 -> length (WeatherData.daily weather) = length days)
    /\ (forall i, i < 7 ->
          WeatherData.daily weather !! i
          = (fun day => transformDailyWeather day units) <$> days !! i)
    /\ (forall i, 7 <= i -> WeatherData.daily weather !! i = None).
Proof.
  intros Hcurrently Hdaily Hdata.
  destruct (transformResponse_returns data units _ _ _ Hcurrently Hdaily Hdata)
    as (weather & Hreturn & _ & _ & _ & Hdays & _).
  exists weather. split; [done|]. rewrite Hdays.
  repeat split.
  - intros Hlen. rewrite length_fmap, length_take. lia.
  - intros Hlen. rewrite length_fmap, length_take. lia.
  - intros i Hi. by rewrite list_lookup_fmap, lookup_take_lt.
  - intros i Hi. by rewrite list_lookup_fmap, lookup_take_ge.
Qed.

(** [a || b] on numbers, case by case. *)
Lemma logical_or_number a b :
  logical_or number_truthy a b
  = match a with
    | Some t => if PrimFloat.is_zero t || PrimFloat.is_nan t then b else Some t
    | None => b
    end.
Proof.
  unfold logical_or, truthy, number_truthy. destruct a as [t|]; [|done].
  by destruct (PrimFloat.is_zero t || PrimFloat.is_nan t).
Qed.

(** C5, as amended.  A maximum that is present and truthy (neither zero
    nor NaN) is the unified maximum, whatever the high is; when the
    maximum is absent, zero or NaN, the unified maximum is the high.  The
    minimum and the low follow the same rule. *)
Theorem temperature_preference day units :
  (forall t,
     PirateWeatherDaily.temperatureMax day = Some t ->
     PrimFloat.is_zero t = false -> PrimFloat.is_nan t = false ->
     DailyWeather.temperatureMax (transformDailyWeather day units) = Some t)
  /\ (PirateWeatherDaily.temperatureMax day = None
      \/ (exists t, PirateWeatherDaily.temperatureMax day = Some t
                    /\ (PrimFloat.is_zero t = true \/ PrimFloat.is_nan t = true)) ->
      DailyWeather.temperatureMax (transformDailyWeather day units)
      = PirateWeatherDaily.temperatureHigh day)
  /\ (forall t,
        PirateWeatherDaily.temperatureMin day = Some t ->
        PrimFloat.is_zero t = false -> PrimFloat.is_nan t = false ->
        DailyWeather.temperatureMin (transformDailyWeather day units) = Some t)
  /\ (PirateWeatherDaily.temperatureMin day = None
      \/ (exists t, PirateWeatherDaily.temperatureMin day = Some t
                    /\ (PrimFloat.is_zero t = true \/ PrimFloat.is_nan t = true)) ->
      DailyWeather.temperatureMin (transformDailyWeather day units)
      = PirateWeatherDaily.temperatureLow day).
Proof.
  assert (DailyWeather.temperatureMax (transformDailyWeather day units)
          = logical_or number_truthy (PirateWeatherDaily.temperatureMax day)
                                     (PirateWeatherDaily.temperatureHigh day)) as ->
    by reflexivity.
  assert (DailyWeather.temperatureMin (transformDailyWeather day units)
          = logical_or number_truthy (PirateWeatherDaily.temperatureMin day)
                                     (PirateWeatherDaily.temperatureLow day)) as ->
    by reflexivity.
  rewrite !logical_or_number. repeat split.
  - intros t -> Hzero Hnan. by rewrite Hzero, Hnan.
  - intros [->|(t & -> & Hfalsy)]; [done|].
    by destruct Hfalsy as [->| ->]; rewrite ?orb_true_r.
  - intros t -> Hzero Hnan. by rewrite Hzero, Hnan.
  - intros [->|(t & -> & Hfalsy)]; [done|].
    by destruct Hfalsy as [->| ->]; rewrite ?orb_true_r.
Qed.

End Transform.

(** ** The fetch *)

Lemma append_assoc (s t u : string) : (s ++ t) ++ u = s ++ t ++ u.
Proof. induction s as [|c s IH]; [done|]. exact (f_equal (String c) IH). Qed.

Lemma append_empty_r (s : string) : s ++ "" = s.
Proof. induction s as [|c s IH]; [done|]. exact (f_equal (String c) IH). Qed.

Lemma length_append (s t : string) :
  String.length (s ++ t) = String.length s + String.length t.
Proof. induction s as [|c s IH]; [done|]. exact (f_equal S IH). Qed.

Lemma includes_start t after : includes (t ++ after) t.
Proof. by exists "", after. Qed.

Lemma includes_append_l s t prefix : includes s t -> includes (prefix ++ s) t.
Proof.
  intros (before & after & ->). exists (prefix ++ before), after.
  by rewrite append_assoc.
Qed.

Lemma includes_end before t : includes (before ++ t) t.
Proof. exists before, "". by rewrite append_empty_r. Qed.

Lemma append_neq (prefix s : string) : prefix <> "" -> prefix ++ s <> s.
Proof.
  intros Hprefix Heq. apply (f_equal String.length) in Heq.
  rewrite length_append in Heq.
  destruct prefix; [done|]. cbn in Heq. lia.
Qed.

(** The error of the [catch] clause carries the context of the fetch,
    followed by the message of the error caught when it has one; it is
    never the value caught. *)
Lemma wrap_prefix error :
  exists message,
    wrap error = new_Error message
    /\ startsWith message "Failed to fetch Pirate Weather data"
    /\ wrap error <> error.
Proof.
  destruct error as [inner|]; cbn.
  - eexists. split; [done|]. split.
    + by exists (": " ++ inner).
    + intros [= Heq]. by apply append_neq in Heq.
  - eexists. split; [done|]. split; [|done]. by exists "".
Qed.

Lemma Response_ok_spec response :
  Response.ok response = false
  <-> (Response.status response < 200 \/ 299 < Response.status response)%N.
Proof.
  unfold Response.ok. rewrite andb_false_iff, !N.leb_gt. done.
Qed.

Section Fetch.

Variable Weather_truthy : Weather -> bool.
Variable TypeError_message : string -> string.
Variable Number_toString : float -> string.
Variable fetch : string -> completion Response.t.

Abbreviation transformResponse := (transformResponse Weather_truthy TypeError_message).
Abbreviation fetchWeatherAsync :=
  (fetchWeatherAsync Weather_truthy TypeError_message Number_toString fetch).

(** How the promise settles once the request is issued, by what the
    network and the body do. *)
Lemma fetchWeatherAsync_requested config url :
  (fetchWeatherAsync config).1 = [url] ->
  let units := logical_or_else string_truthy (WeatherProviderConfig.units config) "us" in
  (fetchWeatherAsync config).2
  = match fetch url with
    | Throw error => Throw (wrap error)
    | Return response =>
        if Response.ok response then
          match Response.json response with
          | Throw error => Throw (wrap error)
          | Return data => try_catch_rethrow (transformResponse data units) wrap
          end
        else
          Throw (wrap (new_Error ("Pirate Weather API error: "
                                    ++ integer_to_string (Response.status response)
                                    ++ " " ++ Response.statusText response)))
    end.
Proof.
  unfold fetchWeatherAsync, PirateWeatherProvider.fetchWeatherAsync.
  destruct (negb (truthy string_truthy _)); [done|].
  destruct (_ || _); [done|].
  intros [= <-]. cbn beta zeta. unfold snd.
  destruct (fetch _) as [response|error]; [|done]. cbn.
  destruct (Response.ok response); [|done]. cbn.
  by destruct (Response.json response).
Qed.

(** A single request is issued when the key and both coordinates are
    truthy, and none otherwise. *)
Lemma fetchWeatherAsync_requests config :
  (exists url, (fetchWeatherAsync config).1 = [url]
               /\ truthy string_truthy (WeatherProviderConfig.apiKey config) = true
               /\ truthy number_truthy (WeatherProviderConfig.latitude config) = true
               /\ truthy number_truthy (WeatherProviderConfig.longitude config) = true)
  \/ ((fetchWeatherAsync config).1 = []
      /\ (truthy string_truthy (WeatherProviderConfig.apiKey config) = false
          \/ truthy number_truthy (WeatherProviderConfig.latitude config) = false
          \/ truthy number_truthy (WeatherProviderConfig.longitude config) = false)).
Proof.
  unfold fetchWeatherAsync, PirateWeatherProvider.fetchWeatherAsync.
  destruct (truthy string_truthy _); cbn; [|by auto].
  destruct (truthy number_truthy (WeatherProviderConfig.latitude config)); cbn; [|by auto].
  destruct (truthy number_truthy (WeatherProviderConfig.longitude config)); cbn; [|by auto].
  left. eauto.
Qed.

(** The promise never settles with a raw failure: whatever it rejects
    with is an [Error] with a message. *)
Lemma fetchWeatherAsync_rejects_with_Error config error :
  (fetchWeatherAsync config).2 = Throw error ->
  exists message, error = new_Error message.
Proof.
  destruct (fetchWeatherAsync_requests config) as [(url & Hurl & _)|[Hnone Hfalsy]].
  - rewrite (fetchWeatherAsync_requested _ _ Hurl). cbn zeta.
    assert (forall e, exists message, wrap e = new_Error message) as Hwrap
      by (intros e; destruct (wrap_prefix e) as (message & ? & _); eauto).
    destruct (fetch url) as [response|e]; [|intros [= <-]; apply Hwrap].
    destruct (Response.ok response); [|intros [= <-]; eauto].
    destruct (Response.json response) as [data|e]; [|intros [= <-]; apply Hwrap].
    destruct (transformResponse data _); [done|intros [= <-]; apply Hwrap].
  - revert Hnone. unfold fetchWeatherAsync, PirateWeatherProvider.fetchWeatherAsync.
    destruct (negb (truthy string_truthy _)); [intros _ [= <-]; eauto|].
    destruct (_ || _); [intros _ [= <-]; eauto|done].
Qed.

(** C2.  A config whose key is empty or undefined, or one of whose
    coordinates is zero or undefined, is refused with one of the two
    configuration errors, which the [catch] clause does not wrap, and no
    request is issued. *)
Theorem fetchWeatherAsync_validation config :
  (WeatherProviderConfig.apiKey config = Some ""
   \/ WeatherProviderConfig.apiKey config = None)
  \/ (WeatherProviderConfig.latitude config = None
      \/ exists x, WeatherProviderConfig.latitude config = Some x
                   /\ PrimFloat.is_zero x = true)
  \/ (WeatherProviderConfig.longitude config = None
      \/ exists x, WeatherProviderConfig.longitude config = Some x
                   /\ PrimFloat.is_zero x = true) ->
  exists message,
    fetchWeatherAsync config = ([], Throw (new_Error message))
    /\ (message = "Pirate Weather API key is required"
        \/ message = "Latitude and longitude are required")
    /\ (truthy string_truthy (WeatherProviderConfig.apiKey config) = false ->
        message = "Pirate Weather API key is required").
Proof.
  intros Hmissing. unfold fetchWeatherAsync, PirateWeatherProvider.fetchWeatherAsync.
  destruct (truthy string_truthy _) eqn:Hkey; cbn [negb]; [|by eauto].
  assert (truthy number_truthy (WeatherProviderConfig.latitude config) = false
          \/ truthy number_truthy (WeatherProviderConfig.longitude config) = false)
    as Hcoordinate.
  { unfold truthy, number_truthy.
    destruct Hmissing as [[Hk|Hk]|[[Hx|(x & Hx & Hzero)]|[Hx|(x & Hx & Hzero)]]];
      try (rewrite Hk in Hkey; done);
      rewrite Hx; cbv beta iota; rewrite ?Hzero; auto. }
  destruct Hcoordinate as [-> | ->]; cbn; rewrite ?orb_true_r;
    eexists; (split; [reflexivity|]); split; [by right|done | by right|done].
Qed.

(** C6.  When the network answers with a status outside 200-299, the
    promise rejects with an [Error] whose message includes the status in
    decimal and the status text; for status 401 it includes ["401"]. *)
Theorem non_2xx_is_reported config url response :
  (fetchWeatherAsync config).1 = [url] ->
  fetch url = Return response ->
  (Response.status response < 200 \/ 299 < Response.status response)%N ->
  exists message,
    (fetchWeatherAsync config).2 = Throw (new_Error message)
    /\ includes message (integer_to_string (Response.status response))
    /\ includes message (Response.statusText response)
    /\ (Response.status response = 401%N -> includes message "401").
Proof.
  intros Hurl Hfetch Hstatus. apply Response_ok_spec in Hstatus.
  rewrite (fetchWeatherAsync_requested _ _ Hurl). cbn zeta.
  rewrite Hfetch, Hstatus. cbn [wrap]. eexists. split; [done|].
  assert (includes
            ("Failed to fetch Pirate Weather data: "
               ++ "Pirate Weather API error: "
               ++ integer_to_string (Response.status response)
               ++ " " ++ Response.statusText response)
            (integer_to_string (Response.status response))) as Hcode
    by (do 2 apply includes_append_l; apply includes_start).
  repeat split.
  - exact Hcode.
  - do 3 apply includes_append_l. apply includes_end.
  - intros H401. rewrite H401 in Hcode |- *. exact Hcode.
Qed.

(** C7.  When the body cannot be parsed, or the transformation of the
    parsed body throws, the promise rejects with the error of the [catch]
    clause: its message is the context of the fetch followed by the
    message of the error caught, or the context alone when what was caught
    is not an [Error]; it is never the value caught. *)
Theorem failure_is_wrapped config url response error :
  (fetchWeatherAsync config).1 = [url] ->
  fetch url = Return response ->
  Response.ok response = true ->
  Response.json response = Throw error
  \/ (exists data,
        Response.json response = Return data
        /\ transformResponse data
             (logical_or_else string_truthy (WeatherProviderConfig.units config) "us")
           = Throw error) ->
  (fetchWeatherAsync config).2 = Throw (wrap error)
  /\ wrap error
     = match error with
       | new_Error inner => new_Error ("Failed to fetch Pirate Weather data: " ++ inner)
       | not_an_Error => new_Error "Failed to fetch Pirate Weather data"
       end
  /\ (exists message,
        wrap error = new_Error message
        /\ startsWith message "Failed to fetch Pirate Weather data")
  /\ wrap error <> error.
Proof.
  intros Hurl Hfetch Hok Hfailure.
  rewrite (fetchWeatherAsync_requested _ _ Hurl). cbn zeta.
  rewrite Hfetch, Hok.
  destruct (wrap_prefix error) as (message & Hwrap & Hprefix & Hraw).
  split; [|split; [by destruct error|split; [by eauto|done]]].
  destruct Hfailure as [-> | (data & -> & ->)]; done.
Qed.

(** C10.  The error for a status outside 200-299 is thrown inside the
    [try] block, so the promise rejects with what the [catch] clause makes
    of it: an [Error] whose message is the context of the fetch followed by
    the status-bearing message.  It is built by the same clause, and is of
    the same kind, as the error for a body that cannot be parsed. *)
Theorem network_error_is_wrapped config url response :
  (fetchWeatherAsync config).1 = [url] ->
  fetch url = Return response ->
  Response.ok response = false ->
  let inner :=
    "Pirate Weather API error: " ++ integer_to_string (Response.status response)
      ++ " " ++ Response.statusText response in
  (fetchWeatherAsync config).2 = Throw (wrap (new_Error inner))
  /\ wrap (new_Error inner)
     = new_Error ("Failed to fetch Pirate Weather data: " ++ inner)
  /\ (fetchWeatherAsync config).2 <> Throw (new_Error inner).
Proof.
  intros Hurl Hfetch Hok inner.
  rewrite (fetchWeatherAsync_requested _ _ Hurl). cbn zeta.
  rewrite Hfetch, Hok. repeat split.
  (* the two messages differ from their first character on *)
  by intros [=].
Qed.

End Fetch.

(** ** The properties on the sample exchange *)

Section OnSample.

Abbreviation transformDailyWeather :=
  (transformDailyWeather Sample.Weather_truthy).
Abbreviation transformResponse :=
  (transformResponse Sample.Weather_truthy Sample.TypeError_message).
Abbreviation fetchWeatherAsync :=
  (fetchWeatherAsync Sample.Weather_truthy Sample.TypeError_message
                     Sample.Number_toString).

(** The default configuration is refused for its empty key, and so is a
    configuration on the equator. *)
Lemma fetchWeatherAsync_validation_witness :
  (exists message,
     fetchWeatherAsync Sample.fetch_ok getDefaultConfig
     = ([], Throw (new_Error message))
     /\ (message = "Pirate Weather API key is required"
         \/ message = "Latitude and longitude are required")
     /\ (truthy string_truthy (WeatherProviderConfig.apiKey getDefaultConfig) = false ->
         message = "Pirate Weather API key is required"))
  /\ (exists message,
        fetchWeatherAsync Sample.fetch_ok
          {| WeatherProviderConfig.apiKey := Some "test-key";
             WeatherProviderConfig.latitude := Some 0%float;
             WeatherProviderConfig.longitude := Some (-105)%float;
             WeatherProviderConfig.units := None |}
        = ([], Throw (new_Error message))
        /\ message = "Latitude and longitude are required").
Proof.
  split.
  - apply fetchWeatherAsync_validation. left. left. reflexivity.
  - destruct (fetchWeatherAsync_validation
                Sample.Weather_truthy Sample.TypeError_message
                Sample.Number_toString Sample.fetch_ok
                {| WeatherProviderConfig.apiKey := Some "test-key";
                   WeatherProviderConfig.latitude := Some 0%float;
                   WeatherProviderConfig.longitude := Some (-105)%float;
                   WeatherProviderConfig.units := None |})
      as (message & Hrefused & _).
    + right. left. right. exists 0%float. split; reflexivity.
    + exists message. split; [exact Hrefused|]. by injection Hrefused.
Defined.

Lemma humidity_cloudCover_rescaled_witness :
  exists weather,
    transformResponse Sample.body "us" = Return weather
    /\ CurrentWeather.humidity (WeatherData.current weather) = (0.5 * 100)%float
    /\ CurrentWeather.cloudCover (WeatherData.current weather) = (0.25 * 100)%float
    /\ exists unified,
         WeatherData.daily weather !! 6 = Some unified
         /\ DailyWeather.humidity unified = (0.5 * 100)%float
         /\ DailyWeather.cloudCover unified = (0.75 * 100)%float.
Proof.
  destruct (humidity_cloudCover_rescaled
              Sample.Weather_truthy Sample.TypeError_message
              Sample.body "us" Sample.currently _ Sample.days
              eq_refl eq_refl eq_refl)
    as (weather & Hreturn & Hhumidity & Hcloud & Hdays).
  exists weather.
  split; [exact Hreturn|]. split; [exact Hhumidity|]. split; [exact Hcloud|].
  apply (Hdays 6 (Sample.day 6 (Some 69%float) (Some 67%float)));
    [lia|reflexivity].
Defined.

Lemma daily_first_seven_witness :
  exists weather,
    transformResponse Sample.body "us" = Return weather
    /\ length Sample.days = 8
    /\ length (WeatherData.daily weather) = 7
    /\ WeatherData.daily weather !! 0
       = Some (transformDailyWeather
                 (Sample.day 0 (Some 75%float) (Some 74%float)) "us")
    /\ WeatherData.daily weather !! 7 = None.
Proof.
  destruct (daily_first_seven
              Sample.Weather_truthy Sample.TypeError_message
              Sample.body "us" Sample.currently _ Sample.days
              eq_refl eq_refl eq_refl)
    as (weather & Hreturn & Hseven & _ & Hkept & Hdropped).
  exists weather. split; [|split; [|split; [|split]]].
  - exact Hreturn.
  - reflexivity.
  - apply Hseven. cbn. lia.
  - rewrite Hkept by lia. reflexivity.
  - apply Hdropped. lia.
Defined.

(** C5, where it fails as stated.  The fourth day of the sample has a
    maximum of zero degrees and a high of five: the maximum is present,
    yet the unified maximum is the high. *)
Lemma temperatureMax_zero_is_replaced :
  PirateWeatherDaily.temperatureMax (Sample.day 3 (Some 0%float) (Some 5%float))
  = Some 0%float
  /\ DailyWeather.temperatureMax
       (transformDailyWeather (Sample.day 3 (Some 0%float) (Some 5%float)) "us")
     = Some 5%float
  /\ DailyWeather.temperatureMax
       (transformDailyWeather (Sample.day 3 (Some 0%float) (Some 5%float)) "us")
     <> Some 0%float.
Proof.
  split; [reflexivity|]. split; [reflexivity|].
  intros Heq. apply (f_equal (truthy number_truthy)) in Heq.
  vm_compute in Heq. discriminate.
Qed.

Lemma temperature_preference_witness :
  DailyWeather.temperatureMax
    (transformDailyWeather (Sample.day 0 (Some 75%float) (Some 74%float)) "us")
  = Some 75%float
  /\ DailyWeather.temperatureMax
       (transformDailyWeather (Sample.day 3 (Some 0%float) (Some 5%float)) "us")
     = Some 5%float
  /\ DailyWeather.temperatureMax
       (transformDailyWeather (Sample.day 4 None (Some 61%float)) "us")
     = Some 61%float
  /\ DailyWeather.temperatureMin
       (transformDailyWeather (Sample.day 0 (Some 75%float) (Some 74%float)) "us")
     = Some 40%float.
Proof.
  split; [|split; [|split]].
  - apply (temperature_preference Sample.Weather_truthy
             (Sample.day 0 (Some 75%float) (Some 74%float)) "us");
      reflexivity.
  - apply (temperature_preference Sample.Weather_truthy
             (Sample.day 3 (Some 0%float) (Some 5%float)) "us").
    right. exists 0%float. split; [reflexivity|left; reflexivity].
  - apply (temperature_preference Sample.Weather_truthy
             (Sample.day 4 None (Some 61%float)) "us").
    left. reflexivity.
  - apply (temperature_preference Sample.Weather_truthy
             (Sample.day 0 (Some 75%float) (Some 74%float)) "us");
      reflexivity.
Defined.

Lemma non_2xx_is_reported_witness :
  exists message,
    (fetchWeatherAsync Sample.fetch_unauthorized Sample.config).2
    = Throw (new_Error message)
    /\ includes message "401"
    /\ includes message "Unauthorized".
Proof.
  destruct (non_2xx_is_reported
              Sample.Weather_truthy Sample.TypeError_message
              Sample.Number_toString Sample.fetch_unauthorized
              Sample.config Sample.url _ eq_refl eq_refl
              (or_intror (eq_refl : (299 ?= 401)%N = Lt)))
    as (message & Hrejects & _ & Htext & Hcode).
  exists message.
  split; [exact Hrejects|]. split; [by apply Hcode|exact Htext].
Defined.

Lemma failure_is_wrapped_witness :
  (fetchWeatherAsync Sample.fetch_malformed Sample.config).2
  = Throw (new_Error ("Failed to fetch Pirate Weather data: "
                        ++ "Unexpected token < in JSON at position 0"))
  /\ (fetchWeatherAsync Sample.fetch_misshapen Sample.config).2
     = Throw (new_Error ("Failed to fetch Pirate Weather data: "
                           ++ Sample.TypeError_message "icon")).
Proof.
  split.
  - apply (failure_is_wrapped
             Sample.Weather_truthy Sample.TypeError_message
             Sample.Number_toString Sample.fetch_malformed
             Sample.config Sample.url _
             (new_Error "Unexpected token < in JSON at position 0")
             eq_refl eq_refl eq_refl).
    left. reflexivity.
  - apply (failure_is_wrapped
             Sample.Weather_truthy Sample.TypeError_message
             Sample.Number_toString Sample.fetch_misshapen
             Sample.config Sample.url _
             (new_Error (Sample.TypeError_message "icon"))
             eq_refl eq_refl eq_refl).
    right. exists Sample.body_without_currently. split; reflexivity.
Defined.

Lemma network_error_is_wrapped_witness :
  (fetchWeatherAsync Sample.fetch_unauthorized Sample.config).2
  = Throw (new_Error
             "Failed to fetch Pirate Weather data: Pirate Weather API error: 401 Unauthorized").
Proof.
  apply (network_error_is_wrapped
           Sample.Weather_truthy Sample.TypeError_message
           Sample.Number_toString Sample.fetch_unauthorized
           Sample.config Sample.url _ eq_refl eq_refl eq_refl).
Defined.

(** The end-to-end property of the specification: on the sample response
    the provider requests one URL and resolves with the unified data. *)
Lemma fetchWeatherAsync_sample :
  exists weather,
    fetchWeatherAsync Sample.fetch_ok Sample.config = ([Sample.url], Return weather)
    /\ CurrentWeather.conditionUnified (WeatherData.current weather) = Val Sunny
    /\ CurrentWeather.humidity (WeatherData.current weather) = 50%float
    /\ CurrentWeather.cloudCover (WeatherData.current weather) = 25%float
    /\ CurrentWeather.condition (WeatherData.current weather) = "Clear"
    /\ length (WeatherData.daily weather) = 7
    /\ DailyWeather.condition <$> WeatherData.daily weather !! 0 = Some "Unknown"
    /\ Location.latitude (WeatherData.location weather) = 40%float
    /\ Location.longitude (WeatherData.location weather) = (-105)%float
    /\ WeatherData.units weather = Val "imperial".
Proof. eexists. split; [by vm_compute|]. by vm_compute. Qed.

(** The multiplication is that of doubles: a humidity of 0.07 is rescaled
    to 7.000000000000001. *)
Lemma rescale_rounds :
  (0x1.1eb851eb851ecp-4 * 100)%float = 0x1.c000000000001p+2%float.
Proof. reflexivity. Qed.

(** C3, where it fails as stated.  A humidity of seven percent is a
    fraction between 0 and 1, and the unified humidity is not the number
    that fraction times 100 is: the double product is rounded. *)
Lemma humidity_is_not_the_exact_product :
  exists weather fraction unified,
    transformResponse Exact.body "us" = Return weather
    /\ Exact.value Exact.seven_percent = Some fraction
    /\ QArith_base.Qle_bool (QArith_base.inject_Z 0) fraction = true
    /\ QArith_base.Qle_bool fraction (QArith_base.inject_Z 1) = true
    /\ CurrentWeather.humidity (WeatherData.current weather)
       = 0x1.c000000000001p+2%float
    /\ Exact.value (CurrentWeather.humidity (WeatherData.current weather))
       = Some unified
    /\ QArith_base.Qeq_bool
         unified (QArith_base.Qmult fraction (QArith_base.inject_Z 100))
       = false.
Proof.
  eexists. eexists. eexists.
  split; [reflexivity|]. split; [reflexivity|].
  split; [by vm_compute|]. split; [by vm_compute|].
  split; [reflexivity|]. split; [reflexivity|]. by vm_compute.
Qed.

End OnSample.

(** * Further properties of the provider *)

(** ** The tables, entry by entry *)

(** The own properties of an object literal without duplicate keys are
    the entries written in it. *)
Lemma literal_lookup {A : Type} (entries : list (string * A)) key a :
  NoDup entries.*1 ->
  (list_to_map entries : gmap string A) !! key = Some a <-> (key, a) ∈ entries.
Proof. intros Hkeys. symmetry. by apply elem_of_list_to_map. Qed.

Lemma literal_lookup_None {A : Type} (entries : list (string * A)) key :
  (list_to_map entries : gmap string A) !! key = None <-> key ∉ entries.*1.
Proof. symmetry. apply not_elem_of_list_to_map. Qed.

Section TableEntries.

Variable Weather_truthy : Weather -> bool.

(** X1.  When the run-time values of the enum members are truthy,
    [mapIconToCondition] yields a condition for exactly two kinds of
    strings: a code of the table yields the condition written for it, and
    a string that is neither a code of the table nor the name of a member
    of %Object.prototype% yields [All].  The match is exact: another
    spelling of a code, as ["Rain"], is no code. *)
Theorem mapIconToCondition_characterised icon condition :
  (forall w, Weather_truthy w = true) ->
  mapIconToCondition Weather_truthy icon = Val condition
  <-> (((icon, condition) ∈
          [ ("clear-day", Sunny); ("clear-night", ClearNight); ("rain", Rainy);
            ("snow", Snowy); ("sleet", Snowy); ("wind", Windy); ("fog", Foggy);
            ("cloudy", Cloudy); ("partly-cloudy-day", PartlyCloudy);
            ("partly-cloudy-night", PartlyCloudyNight); ("hail", Hail);
            ("thunderstorm", Lightning); ("tornado", Exceptional) ])
       \/ (condition = All
           /\ (icon ∉ [ "clear-day"; "clear-night"; "rain"; "snow"; "sleet";
                        "wind"; "fog"; "cloudy"; "partly-cloudy-day";
                        "partly-cloudy-night"; "hail"; "thunderstorm"; "tornado" ])
           /\ icon ∉ Object_prototype)).
Proof.
  intros Htruthy. unfold mapIconToCondition, iconMap, get_or, get.
  match goal with
  | |- context [list_to_map ?entries] =>
      pose proof (literal_lookup entries icon) as Hown;
      pose proof (literal_lookup_None entries icon) as Hnone;
      destruct (list_to_map entries !! icon) as [a|]
  end.
  - rewrite Htruthy. split.
    + intros [= <-]. left. apply Hown; [compute_done|done].
    + intros [Hin|(_ & Hcode & _)].
      * apply Hown in Hin as [= ->]; [done|compute_done].
      * by apply Hnone in Hcode.
  - assert (icon ∉ [ "clear-day"; "clear-night"; "rain"; "snow"; "sleet";
                     "wind"; "fog"; "cloudy"; "partly-cloudy-day";
                     "partly-cloudy-night"; "hail"; "thunderstorm"; "tornado" ])
      as Hcode by by apply Hnone.
    case_bool_decide as Hproto; split.
    + done.
    + intros [Hin|(_ & _ & ?)]; [|done].
      apply Hown in Hin; [done|compute_done].
    + intros [= <-]. by right.
    + intros [Hin|(-> & _)]; [|done].
      apply Hown in Hin; [done|compute_done].
Qed.

(** X2.  For the name of a member of %Object.prototype% [getIconUrl]
    returns that member; for every other string it returns a string, the
    base URL followed by the path of one of twelve images.  No string makes
    it return the empty string or nothing. *)
Theorem getIconUrl_range icon :
  ((icon ∈ Object_prototype) /\ getIconUrl icon = Builtin icon)
  \/ ((icon ∉ Object_prototype)
      /\ exists file,
           getIconUrl icon = Val (baseIconUrl ++ file)
           /\ file ∈ [ "/clear.png"; "/nt_clear.png"; "/rain.png"; "/snow.png";
                       "/sleet.png"; "/wind.png"; "/fog.png"; "/cloudy.png";
                       "/partlycloudy.png"; "/nt_partlycloudy.png";
                       "/tstorms.png"; "/tornado.png" ]).
Proof.
  destruct (decide (icon ∈ Object_prototype)) as [Hproto|Hproto].
  { left. split; [done|]. apply get_or_inherited; [by apply tables_inherit|done]. }
  right. split; [done|].
  destruct (iconMapping !! icon) as [url|] eqn:Hicon.
  - unfold iconMapping in Hicon. apply literal_lookup in Hicon; [|compute_done].
    repeat (apply elem_of_cons in Hicon as [[= -> ->]|Hicon];
            [eexists; split; [by vm_compute|set_solver]|]).
    by apply elem_of_nil in Hicon.
  - exists "/cloudy.png". split; [by apply get_or_undefined|set_solver].
Qed.

(** X3.  The label of a units code, read backwards: ["metric"] is the
    label of ["si"] and ["ca"] only, ["hybrid"] of ["uk2"] only, and
    ["imperial"] of every other string that is not the name of a member of
    %Object.prototype%, ["us"] among them.  Codes are matched exactly. *)
Theorem getUnitsDescription_characterised units :
  (getUnitsDescription units = Val "metric" <-> units = "si" \/ units = "ca")
  /\ (getUnitsDescription units = Val "hybrid" <-> units = "uk2")
  /\ (getUnitsDescription units = Val "imperial"
      <-> (units ∉ Object_prototype)
          /\ units <> "si" /\ units <> "ca" /\ units <> "uk2").
Proof.
  destruct (decide (units ∈ Object_prototype)) as [Hproto|Hproto].
  { unfold getUnitsDescription.
    rewrite get_or_inherited by (by apply tables_inherit || done).
    assert (units <> "si" /\ units <> "ca" /\ units <> "uk2") as (? & ? & ?)
      by (repeat split; intros ->; revert Hproto; compute_done).
    repeat split; try done; intros; tauto. }
  destruct (unitsMap !! units) as [label|] eqn:Hunits.
  - unfold unitsMap in Hunits. apply literal_lookup in Hunits; [|compute_done].
    rewrite (getUnitsDescription_table units label Hunits).
    repeat (apply elem_of_cons in Hunits as [[= -> ->]|Hunits];
            [repeat split; intuition congruence|]).
    by apply elem_of_nil in Hunits.
  - unfold getUnitsDescription. rewrite get_or_undefined by done.
    unfold unitsMap in Hunits. apply literal_lookup_None in Hunits.
    assert (units <> "si" /\ units <> "ca" /\ units <> "uk2") as (? & ? & ?)
      by (repeat split; intros ->; apply Hunits; set_solver).
    repeat split; try done; intros; tauto.
Qed.

(** X4.  The condition table and the icon table list the same codes:
    every code that has a condition has an image, and the other way
    round. *)
Theorem tables_list_the_same_codes icon :
  is_Some (iconMap !! icon) <-> is_Some (iconMapping !! icon).
Proof.
  rewrite <- !elem_of_dom. unfold iconMap, iconMapping.
  by rewrite !dom_list_to_map_L.
Qed.

End TableEntries.

Lemma mapIconToCondition_characterised_witness :
  mapIconToCondition Sample.Weather_truthy "sleet" = Val Snowy
  /\ mapIconToCondition Sample.Weather_truthy "Rain" = Val All.
Proof.
  split.
  - apply (mapIconToCondition_characterised Sample.Weather_truthy "sleet" Snowy);
      [reflexivity|].
    left. set_solver.
  - apply (mapIconToCondition_characterised Sample.Weather_truthy "Rain" All);
      [reflexivity|].
    right. split; [reflexivity|]. split; compute_done.
Defined.

(** ** The transformation, field by field *)

(** Runs [transformResponse] on each shape of body. *)
Ltac transformResponse_cases data :=
  unfold transformResponse, PirateWeatherProvider.transformResponse;
  let block := fresh "block" in
  let currently := fresh "currently" in
  let days := fresh "days" in
  let Hdaily := fresh "Hdaily" in
  let Hcurrently := fresh "Hcurrently" in
  let Hdata := fresh "Hdata" in
  destruct (PirateWeatherResponse.daily data) as [block|] eqn:Hdaily; cbn;
  [destruct (PirateWeatherResponse.currently data) as [currently|] eqn:Hcurrently; cbn;
   [destruct (PirateWeatherResponse.data block) as [days|] eqn:Hdata; cbn|]|].

Lemma formatCondition_not_empty summary : formatCondition summary <> "".
Proof. by destruct summary. Qed.

Section Fields.

Variable Weather_truthy : Weather -> bool.
Variable TypeError_message : string -> string.

Abbreviation transformDailyWeather := (transformDailyWeather Weather_truthy).
Abbreviation transformResponse := (transformResponse Weather_truthy TypeError_message).

(** X5.  Whenever the transformation returns, the display condition of
    the current block, and of the daily entry at each position, is the
    vendor's summary at that place when it is not empty and ["Unknown"]
    when it is; so it is never the empty string. *)
Theorem conditions_are_never_empty data units weather :
  transformResponse data units = Return weather ->
  exists currently block days,
    PirateWeatherResponse.currently data = Some currently
    /\ PirateWeatherResponse.daily data = Some block
    /\ PirateWeatherResponse.data block = Some days
    /\ CurrentWeather.condition (WeatherData.current weather)
       = (if decide (PirateWeatherCurrently.summary currently = "")
          then "Unknown" else PirateWeatherCurrently.summary currently)
    /\ CurrentWeather.condition (WeatherData.current weather) <> ""
    /\ Forall2
         (fun day unified =>
            DailyWeather.condition unified
            = (if decide (PirateWeatherDaily.summary day = "")
               then "Unknown" else PirateWeatherDaily.summary day)
            /\ DailyWeather.condition unified <> "")
         (take 7 days) (WeatherData.daily weather).
Proof.
  assert (forall summary,
            formatCondition summary
            = if decide (summary = "") then "Unknown" else summary) as Hformat
    by (by intros [|c summary]).
  transformResponse_cases data; intros [= <-]; cbn.
  exists currently, block, days. repeat split; try done.
  - apply formatCondition_not_empty.
  - apply Forall2_fmap_r, Forall_Forall2_diag, Forall_true. intros day. cbn.
    split; [apply Hformat|apply formatCondition_not_empty].
Qed.

(** X6.  The unified maximum is never invented: when present it is the
    vendor's maximum or the vendor's high, and it is absent only when the
    high is absent.  A unified maximum of zero can only be the high: a
    maximum of zero is never kept.  The same holds of the minimum and the
    low. *)
Theorem unified_temperatures_come_from_the_vendor day units :
  (forall t,
     DailyWeather.temperatureMax (transformDailyWeather day units) = Some t ->
     (PirateWeatherDaily.temperatureMax day = Some t /\ PrimFloat.is_zero t = false)
     \/ PirateWeatherDaily.temperatureHigh day = Some t)
  /\ (DailyWeather.temperatureMax (transformDailyWeather day units) = None ->
      PirateWeatherDaily.temperatureHigh day = None)
  /\ (forall t,
        DailyWeather.temperatureMin (transformDailyWeather day units) = Some t ->
        (PirateWeatherDaily.temperatureMin day = Some t /\ PrimFloat.is_zero t = false)
        \/ PirateWeatherDaily.temperatureLow day = Some t)
  /\ (DailyWeather.temperatureMin (transformDailyWeather day units) = None ->
      PirateWeatherDaily.temperatureLow day = None).
Proof.
  assert (forall a b : option float,
            (forall t, logical_or number_truthy a b = Some t ->
                       (a = Some t /\ PrimFloat.is_zero t = false) \/ b = Some t)
            /\ (logical_or number_truthy a b = None -> b = None)) as Hor.
  { intros a b. rewrite logical_or_number. destruct a as [x|]; [|by auto].
    destruct (PrimFloat.is_zero x) eqn:Hzero; cbn; [by auto|].
    destruct (PrimFloat.is_nan x); cbn; [by auto|].
    split; [|done]. intros t [= <-]. by left. }
  split; [apply Hor|]. split; [apply Hor|]. split; apply Hor.
Qed.

(** X7.  The units code only chooses the label of the result: the
    numbers are never converted.  On the same body, two units codes make
    the transformation throw the same error, or return results with the
    same current block, daily entries and location. *)
Theorem units_only_choose_the_label data units units' :
  match transformResponse data units, transformResponse data units' with
  | Return weather, Return weather' =>
      WeatherData.current weather = WeatherData.current weather'
      /\ WeatherData.daily weather = WeatherData.daily weather'
      /\ WeatherData.location weather = WeatherData.location weather'
  | Throw error, Throw error' => error = error'
  | _, _ => False
  end.
Proof. by transformResponse_cases data. Qed.

(** X8.  Which part of a misshapen body the [TypeError] names.  A body
    whose [daily] is undefined fails on reading [data], whatever else is
    missing; with [daily] but with [currently] undefined it fails on
    reading [icon]; with both but with [daily.data] undefined it fails on
    reading [slice]. *)
Theorem transformResponse_first_missing_part data units :
  (PirateWeatherResponse.daily data = None ->
   transformResponse data units = Throw (new_Error (TypeError_message "data")))
  /\ (forall block,
        PirateWeatherResponse.daily data = Some block ->
        PirateWeatherResponse.currently data = None ->
        transformResponse data units = Throw (new_Error (TypeError_message "icon")))
  /\ (forall block currently,
        PirateWeatherResponse.daily data = Some block ->
        PirateWeatherResponse.currently data = Some currently ->
        PirateWeatherResponse.data block = None ->
        transformResponse data units = Throw (new_Error (TypeError_message "slice"))).
Proof.
  unfold transformResponse, PirateWeatherProvider.transformResponse.
  split; [|split].
  - by intros ->.
  - by intros block -> ->.
  - intros block currently -> -> Hdata. cbn. by rewrite Hdata.
Qed.

(** X9.  Whenever the transformation returns, the current block carries
    the vendor's temperature, apparent temperature, pressure, wind, UV
    index and visibility unchanged, with the gust present or absent as the
    vendor has it, and the location is the one of the response. *)
Theorem current_block_is_copied data units weather :
  transformResponse data units = Return weather ->
  exists currently,
    PirateWeatherResponse.currently data = Some currently
    /\ CurrentWeather.temperature (WeatherData.current weather)
       = PirateWeatherCurrently.temperature currently
    /\ CurrentWeather.feelsLike (WeatherData.current weather)
       = PirateWeatherCurrently.apparentTemperature currently
    /\ CurrentWeather.pressure (WeatherData.current weather)
       = PirateWeatherCurrently.pressure currently
    /\ CurrentWeather.windSpeed (WeatherData.current weather)
       = PirateWeatherCurrently.windSpeed currently
    /\ CurrentWeather.windGust (WeatherData.current weather)
       = PirateWeatherCurrently.windGust currently
    /\ CurrentWeather.windBearing (WeatherData.current weather)
       = PirateWeatherCurrently.windBearing currently
    /\ CurrentWeather.uvIndex (WeatherData.current weather)
       = PirateWeatherCurrently.uvIndex currently
    /\ CurrentWeather.visibility (WeatherData.current weather)
       = PirateWeatherCurrently.visibility currently
    /\ CurrentWeather.icon (WeatherData.current weather)
       = getIconUrl (PirateWeatherCurrently.icon currently)
    /\ WeatherData.location weather
       = {| Location.latitude := PirateWeatherResponse.latitude data;
            Location.longitude := PirateWeatherResponse.longitude data;
            Location.timezone := PirateWeatherResponse.timezone data |}.
Proof.
  transformResponse_cases data; intros [= <-]; cbn.
  eexists. split; [done|]. by repeat split.
Qed.

End Fields.

Lemma transformResponse_first_missing_part_witness :
  transformResponse Sample.Weather_truthy Sample.TypeError_message
    Sample.body_without_currently "us"
  = Throw (new_Error "Cannot read properties of undefined (reading 'icon')")
  /\ transformResponse Sample.Weather_truthy Sample.TypeError_message
       {| PirateWeatherResponse.latitude := 40%float;
          PirateWeatherResponse.longitude := (-105)%float;
          PirateWeatherResponse.timezone := "America/Denver";
          PirateWeatherResponse.currently := None;
          PirateWeatherResponse.daily := None |} "us"
     = Throw (new_Error "Cannot read properties of undefined (reading 'data')").
Proof.
  split.
  - eapply (transformResponse_first_missing_part
              Sample.Weather_truthy Sample.TypeError_message
              Sample.body_without_currently "us");
      reflexivity.
  - apply (transformResponse_first_missing_part
             Sample.Weather_truthy Sample.TypeError_message).
    reflexivity.
Defined.

Lemma conditions_are_never_empty_witness :
  exists weather,
    transformResponse Sample.Weather_truthy Sample.TypeError_message Sample.body "us"
    = Return weather
    /\ CurrentWeather.condition (WeatherData.current weather) = "Clear"
    /\ Forall2
         (fun day unified =>
            DailyWeather.condition unified
            = (if decide (PirateWeatherDaily.summary day = "")
               then "Unknown" else PirateWeatherDaily.summary day)
            /\ DailyWeather.condition unified <> "")
         (take 7 Sample.days) (WeatherData.daily weather).
Proof.
  eexists. split; [reflexivity|].
  match goal with
  | |- context [WeatherData.current ?weather] =>
      destruct (conditions_are_never_empty
                  Sample.Weather_truthy Sample.TypeError_message
                  Sample.body "us" weather eq_refl)
        as (currently & block & days & Hcurrently & Hblock & Hdays
            & Hcondition & _ & Hdaily)
  end.
  injection Hcurrently as <-. injection Hblock as <-. injection Hdays as <-.
  split; [exact Hcondition|exact Hdaily].
Defined.

Lemma unified_temperatures_come_from_the_vendor_witness :
  (PirateWeatherDaily.temperatureMax (Sample.day 3 (Some 0%float) (Some 5%float))
   = Some 5%float
   /\ PrimFloat.is_zero 5 = false)
  \/ PirateWeatherDaily.temperatureHigh (Sample.day 3 (Some 0%float) (Some 5%float))
     = Some 5%float.
Proof.
  apply (unified_temperatures_come_from_the_vendor
           Sample.Weather_truthy (Sample.day 3 (Some 0%float) (Some 5%float)) "us").
  reflexivity.
Defined.

Lemma current_block_is_copied_witness :
  exists weather currently,
    transformResponse Sample.Weather_truthy Sample.TypeError_message Sample.body "si"
    = Return weather
    /\ PirateWeatherResponse.currently Sample.body = Some currently
    /\ CurrentWeather.temperature (WeatherData.current weather)
       = PirateWeatherCurrently.temperature currently
    /\ CurrentWeather.windGust (WeatherData.current weather)
       = PirateWeatherCurrently.windGust currently.
Proof.
  eexists.
  destruct (current_block_is_copied
              Sample.Weather_truthy Sample.TypeError_message Sample.body "si" _ eq_refl)
    as (currently & Hcurrently & Htemperature & _ & _ & _ & Hgust & _).
  exists currently.
  split; [reflexivity|]. split; [exact Hcurrently|].
  split; [exact Htemperature|exact Hgust].
Defined.

(** ** The fetch, outcome by outcome *)

(** X17.  The catch clause loses nothing: two values it tells apart, by
    being an [Error] or not and by their messages, give different errors,
    so the message of the error caught can be read back from the message
    of the error thrown. *)
Theorem wrap_inj error error' : wrap error = wrap error' -> error = error'.
Proof.
  destruct error as [message|], error' as [message'|]; cbn; [| | |done].
  - (* injection strips the common prefix character by character *)
    intros [= Heq]. f_equal. exact Heq.
  - intros Heq. apply (f_equal (fun e => if e is new_Error m then String.length m else 0))
      in Heq.
    rewrite length_append in Heq. cbn in Heq. lia.
  - intros Heq. apply (f_equal (fun e => if e is new_Error m then String.length m else 0))
      in Heq.
    rewrite length_append in Heq. cbn in Heq. lia.
Qed.

Section Outcomes.

Variable Weather_truthy : Weather -> bool.
Variable TypeError_message : string -> string.
Variable Number_toString : float -> string.

Abbreviation transformResponse := (transformResponse Weather_truthy TypeError_message).
Abbreviation fetchWeatherAsync :=
  (fetchWeatherAsync Weather_truthy TypeError_message Number_toString).

(** Which request is issued does not depend on what the network does. *)
Lemma requests_do_not_depend_on_the_network fetch fetch' config :
  (fetchWeatherAsync fetch config).1 = (fetchWeatherAsync fetch' config).1.
Proof.
  unfold fetchWeatherAsync, PirateWeatherProvider.fetchWeatherAsync.
  destruct (negb (truthy string_truthy _)); [done|].
  by destruct (_ || _).
Qed.

(** Without a request the promise rejects with a configuration error. *)
Lemma fetchWeatherAsync_refused fetch config :
  (fetchWeatherAsync fetch config).1 = [] ->
  exists message,
    (fetchWeatherAsync fetch config).2 = Throw (new_Error message)
    /\ (message = "Pirate Weather API key is required"
        \/ message = "Latitude and longitude are required").
Proof.
  unfold fetchWeatherAsync, PirateWeatherProvider.fetchWeatherAsync.
  destruct (negb (truthy string_truthy _)); [by eauto|].
  destruct (_ || _); [by eauto|done].
Qed.

(** X10.  The request.  With a non-empty key and coordinates that are
    neither zero nor NaN, exactly one URL is requested: the base URL, the
    key, the two coordinates separated by a comma, and the units code as
    the query, where the code is the configured one, or ["us"] when none or
    the empty one is configured.  Key and code are inserted as they are,
    without escaping. *)
Theorem request_url fetch config key latitude longitude :
  WeatherProviderConfig.apiKey config = Some key -> key <> "" ->
  WeatherProviderConfig.latitude config = Some latitude ->
  number_truthy latitude = true ->
  WeatherProviderConfig.longitude config = Some longitude ->
  number_truthy longitude = true ->
  exists units,
    (fetchWeatherAsync fetch config).1
    = [ "https://api.pirateweather.net/forecast/" ++ key ++ "/"
          ++ Number_toString latitude ++ "," ++ Number_toString longitude
          ++ "?units=" ++ units ]
    /\ ((WeatherProviderConfig.units config = Some units /\ units <> "")
        \/ (units = "us"
            /\ (WeatherProviderConfig.units config = None
                \/ WeatherProviderConfig.units config = Some ""))).
Proof.
  intros Hkey Hnonempty Hlatitude Hlat Hlongitude Hlon.
  unfold fetchWeatherAsync, PirateWeatherProvider.fetchWeatherAsync.
  rewrite Hkey, Hlatitude, Hlongitude. cbn [truthy interpolate].
  rewrite Hlat, Hlon. destruct key as [|c key]; [done|]. cbn [string_truthy negb orb fst].
  exists (logical_or_else string_truthy (WeatherProviderConfig.units config) "us").
  split; [done|].
  destruct (WeatherProviderConfig.units config) as [[|c' units]|]; cbn; auto.
Qed.

(** X11.  A coordinate that is NaN is refused like a missing one: with a
    key, the promise rejects with the coordinates error and nothing is
    requested. *)
Theorem NaN_coordinate_is_refused fetch config key x :
  WeatherProviderConfig.apiKey config = Some key -> key <> "" ->
  WeatherProviderConfig.latitude config = Some x
  \/ WeatherProviderConfig.longitude config = Some x ->
  PrimFloat.is_nan x = true ->
  fetchWeatherAsync fetch config
  = ([], Throw (new_Error "Latitude and longitude are required")).
Proof.
  intros Hkey Hnonempty Hcoordinate Hnan.
  unfold fetchWeatherAsync, PirateWeatherProvider.fetchWeatherAsync.
  rewrite Hkey. destruct key as [|c key]; [done|]. cbn [truthy string_truthy negb].
  destruct Hcoordinate as [-> | ->]; cbn [truthy]; unfold number_truthy;
    rewrite Hnan, orb_true_r; cbn [negb orb]; by rewrite ?orb_true_r.
Qed.

(** X12.  When the request itself fails, the promise rejects with the
    error of the catch clause: the context of the fetch followed by the
    message of the network error, or the context alone when [fetch]
    rejected with something that is no [Error]. *)
Theorem network_failure_is_wrapped fetch config url error :
  (fetchWeatherAsync fetch config).1 = [url] ->
  fetch url = Throw error ->
  (fetchWeatherAsync fetch config).2
  = Throw (new_Error
             match error with
             | new_Error message => "Failed to fetch Pirate Weather data: " ++ message
             | not_an_Error => "Failed to fetch Pirate Weather data"
             end).
Proof.
  intros Hurl Hfetch. rewrite (fetchWeatherAsync_requested _ _ _ _ _ _ Hurl).
  cbn zeta. rewrite Hfetch. by destruct error.
Qed.

(** X13.  The promise resolves in one way only: a request was issued,
    the network answered it with a status from 200 to 299, the body was
    parsed, and the transformation of the parsed body, under the
    configured units code or ["us"], returned the value the promise
    resolves with. *)
Theorem resolves_iff fetch config weather :
  (fetchWeatherAsync fetch config).2 = Return weather
  <-> exists url response data,
        (fetchWeatherAsync fetch config).1 = [url]
        /\ fetch url = Return response
        /\ Response.ok response = true
        /\ Response.json response = Return data
        /\ transformResponse data
             (logical_or_else string_truthy (WeatherProviderConfig.units config) "us")
           = Return weather.
Proof.
  split.
  - intros Hresolves.
    destruct (fetchWeatherAsync_requests
                Weather_truthy TypeError_message Number_toString fetch config)
      as [(url & Hurl & _)|[Hnone _]].
    + rewrite (fetchWeatherAsync_requested _ _ _ _ _ _ Hurl) in Hresolves.
      cbn zeta in Hresolves. exists url.
      destruct (fetch url) as [response|]; [|done].
      destruct (Response.ok response) eqn:Hok; [|done].
      destruct (Response.json response) as [data|] eqn:Hjson; [|done].
      exists response, data. repeat split; try done.
      by destruct (transformResponse data _).
    + apply fetchWeatherAsync_refused in Hnone as (message & Hrejects & _).
      by rewrite Hrejects in Hresolves.
  - intros (url & response & data & Hurl & Hfetch & Hok & Hjson & Hreturn).
    rewrite (fetchWeatherAsync_requested _ _ _ _ _ _ Hurl). cbn zeta.
    by rewrite Hfetch, Hok, Hjson, Hreturn.
Qed.

(** X14.  The errors of the provider.  Whatever the promise rejects
    with is an [Error].  If nothing was requested its message is one of
    the two configuration messages; if a request was issued its message
    starts with the context of the fetch. *)
Theorem rejections fetch config error :
  (fetchWeatherAsync fetch config).2 = Throw error ->
  exists message,
    error = new_Error message
    /\ (((fetchWeatherAsync fetch config).1 = []
         /\ (message = "Pirate Weather API key is required"
             \/ message = "Latitude and longitude are required"))
        \/ ((exists url, (fetchWeatherAsync fetch config).1 = [url])
            /\ startsWith message "Failed to fetch Pirate Weather data")).
Proof.
  intros Hrejects.
  destruct (fetchWeatherAsync_requests
              Weather_truthy TypeError_message Number_toString fetch config)
    as [(url & Hurl & _)|[Hnone _]].
  - assert (exists caught, error = wrap caught) as [caught ->].
    { rewrite (fetchWeatherAsync_requested _ _ _ _ _ _ Hurl) in Hrejects.
      cbn zeta in Hrejects.
      destruct (fetch url) as [response|caught]; [|exists caught; congruence].
      destruct (Response.ok response);
        [|eexists (new_Error _); injection Hrejects as <-; reflexivity].
      destruct (Response.json response) as [data|caught];
        [|exists caught; congruence].
      destruct (transformResponse data _) as [|caught];
        [done|exists caught; cbn in Hrejects; congruence]. }
    destruct (wrap_prefix caught) as (message & -> & Hprefix & _).
    exists message. split; [done|]. right. eauto.
  - destruct (fetchWeatherAsync_refused _ _ Hnone) as (message & Hrefused & Hmessage).
    rewrite Hrefused in Hrejects. injection Hrejects as <-.
    exists message. split; [done|]. by left.
Qed.

(** X15.  On a status outside 200-299 the body is not read: two answers
    with the same status and status text give the same rejection, whatever
    their bodies hold. *)
Theorem error_status_ignores_the_body fetch fetch' config url response response' :
  (fetchWeatherAsync fetch config).1 = [url] ->
  fetch url = Return response ->
  fetch' url = Return response' ->
  Response.status response' = Response.status response ->
  Response.statusText response' = Response.statusText response ->
  Response.ok response = false ->
  (fetchWeatherAsync fetch' config).2 = (fetchWeatherAsync fetch config).2.
Proof.
  intros Hurl Hfetch Hfetch' Hstatus Htext Hok.
  assert ((fetchWeatherAsync fetch' config).1 = [url]) as Hurl'
    by by rewrite (requests_do_not_depend_on_the_network fetch' fetch).
  rewrite (fetchWeatherAsync_requested _ _ _ _ _ _ Hurl),
    (fetchWeatherAsync_requested _ _ _ _ _ _ Hurl').
  cbn zeta. rewrite Hfetch, Hfetch'. unfold Response.ok in *.
  by rewrite Hstatus, Hok, Htext.
Qed.

(** X16.  What a caller receives on success.  The result has at most
    seven daily entries, its location is the one in the parsed body of the
    response to the request issued, not the configured one, and its units
    label is the label of the configured units code, which is ["imperial"]
    when none or the empty one is configured. *)
Theorem resolved_value fetch config weather :
  (fetchWeatherAsync fetch config).2 = Return weather ->
  length (WeatherData.daily weather) <= 7
  /\ WeatherData.units weather
     = getUnitsDescription
         (logical_or_else string_truthy (WeatherProviderConfig.units config) "us")
  /\ (WeatherProviderConfig.units config = None
      \/ WeatherProviderConfig.units config = Some "" ->
      WeatherData.units weather = Val "imperial")
  /\ exists url response data,
       (fetchWeatherAsync fetch config).1 = [url]
       /\ fetch url = Return response
       /\ Response.json response = Return data
       /\ Location.latitude (WeatherData.location weather)
          = PirateWeatherResponse.latitude data
       /\ Location.longitude (WeatherData.location weather)
          = PirateWeatherResponse.longitude data
       /\ Location.timezone (WeatherData.location weather)
          = PirateWeatherResponse.timezone data.
Proof.
  intros Hresolves.
  destruct (fetchWeatherAsync_requests
              Weather_truthy TypeError_message Number_toString fetch config)
    as [(url & Hurl & _)|[Hnone _]].
  2: { apply fetchWeatherAsync_refused in Hnone as (message & Hrejects & _).
       by rewrite Hrejects in Hresolves. }
  rewrite (fetchWeatherAsync_requested _ _ _ _ _ _ Hurl) in Hresolves.
  cbn zeta in Hresolves.
  destruct (fetch url) as [response|] eqn:Hfetch; [|done].
  destruct (Response.ok response); [|done].
  destruct (Response.json response) as [data|] eqn:Hjson; [|done].
  revert Hresolves. transformResponse_cases data; intros [= <-]; cbn.
  split; [rewrite length_fmap, length_take; lia|]. split; [done|].
  split; [by intros [-> | ->]|].
  by exists url, response, data.
Qed.

End Outcomes.

(** ** The outcomes on the sample exchange *)

Section OutcomesOnSample.

Abbreviation fetchWeatherAsync :=
  (fetchWeatherAsync Sample.Weather_truthy Sample.TypeError_message
                     Sample.Number_toString).

(** A network that cannot be reached, rejecting with a value that is no
    [Error]. *)
Abbreviation fetch_unreachable :=
  (fun _ : string => @Throw Response.t not_an_Error).

(** A network that answers 401 with a body that cannot be parsed. *)
Abbreviation fetch_unauthorized_html :=
  (fun _ : string =>
     Return {| Response.status := 401; Response.statusText := "Unauthorized";
               Response.json := Throw (new_Error "Unexpected token <") |}).

Lemma wrap_inj_witness :
  new_Error "Unexpected token <" = new_Error "Unexpected token <".
Proof. exact (wrap_inj _ _ eq_refl). Defined.

Lemma request_url_witness :
  (fetchWeatherAsync Sample.fetch_ok Sample.config).1 = [Sample.url].
Proof.
  destruct (request_url
              Sample.Weather_truthy Sample.TypeError_message Sample.Number_toString
              Sample.fetch_ok Sample.config "test-key" 40%float (-105)%float
              eq_refl ltac:(discriminate) eq_refl eq_refl eq_refl eq_refl)
    as (units & Hurl & [[Hunits _]|[Hunits _]]).
  - injection Hunits as <-. exact Hurl.
  - rewrite Hunits in Hurl. exact Hurl.
Defined.

Lemma NaN_coordinate_is_refused_witness :
  fetchWeatherAsync Sample.fetch_ok
    {| WeatherProviderConfig.apiKey := Some "test-key";
       WeatherProviderConfig.latitude := Some (0 / 0)%float;
       WeatherProviderConfig.longitude := Some (-105)%float;
       WeatherProviderConfig.units := Some "si" |}
  = ([], Throw (new_Error "Latitude and longitude are required")).
Proof.
  apply (NaN_coordinate_is_refused
           Sample.Weather_truthy Sample.TypeError_message Sample.Number_toString
           Sample.fetch_ok _ "test-key" (0 / 0)%float);
    [reflexivity|discriminate|left; reflexivity|reflexivity].
Defined.

Lemma network_failure_is_wrapped_witness :
  (fetchWeatherAsync fetch_unreachable Sample.config).2
  = Throw (new_Error "Failed to fetch Pirate Weather data").
Proof.
  apply (network_failure_is_wrapped
           Sample.Weather_truthy Sample.TypeError_message Sample.Number_toString
           fetch_unreachable Sample.config Sample.url not_an_Error);
    reflexivity.
Defined.

Lemma rejections_witness :
  exists message,
    (fetchWeatherAsync Sample.fetch_malformed Sample.config).2
    = Throw (new_Error message)
    /\ startsWith message "Failed to fetch Pirate Weather data".
Proof.
  destruct (rejections
              Sample.Weather_truthy Sample.TypeError_message Sample.Number_toString
              Sample.fetch_malformed Sample.config _ eq_refl)
    as (message & Hmessage & [[Hnone _]|[_ Hprefix]]).
  - discriminate Hnone.
  - exists message. split; [by rewrite <- Hmessage|exact Hprefix].
Defined.

Lemma error_status_ignores_the_body_witness :
  (fetchWeatherAsync fetch_unauthorized_html Sample.config).2
  = (fetchWeatherAsync Sample.fetch_unauthorized Sample.config).2.
Proof.
  apply (error_status_ignores_the_body
           Sample.Weather_truthy Sample.TypeError_message Sample.Number_toString
           Sample.fetch_unauthorized fetch_unauthorized_html
           Sample.config Sample.url _ _ eq_refl eq_refl eq_refl eq_refl eq_refl eq_refl).
Defined.

Lemma resolved_value_witness :
  exists weather,
    (fetchWeatherAsync Sample.fetch_ok
       {| WeatherProviderConfig.apiKey := Some "test-key";
          WeatherProviderConfig.latitude := Some 40%float;
          WeatherProviderConfig.longitude := Some (-105)%float;
          WeatherProviderConfig.units := None |}).2
    = Return weather
    /\ length (WeatherData.daily weather) <= 7
    /\ WeatherData.units weather = Val "imperial".
Proof.
  eexists. split; [reflexivity|].
  match goal with
  | |- context [WeatherData.daily ?weather] =>
      destruct (resolved_value
                  Sample.Weather_truthy Sample.TypeError_message
                  Sample.Number_toString Sample.fetch_ok
                  {| WeatherProviderConfig.apiKey := Some "test-key";
                     WeatherProviderConfig.latitude := Some 40%float;
                     WeatherProviderConfig.longitude := Some (-105)%float;
                     WeatherProviderConfig.units := None |}
                  weather eq_refl)
        as (Hlength & _ & Hunits & _)
  end.
  split; [exact Hlength|]. apply Hunits. left. reflexivity.
Defined.

End OutcomesOnSample.

(** ** The daily entries, one by one *)

Section DailyEntries.

Variable Weather_truthy : Weather -> bool.
Variable TypeError_message : string -> string.

Abbreviation transformResponse := (transformResponse Weather_truthy TypeError_message).

(** X18.  Every entry of the unified daily sequence stems from the
    vendor's entry at the same position, which is one of the first seven:
    its date is built from the vendor's time in seconds times 1000, its
    pressure, wind and UV index are the vendor's, its gust is present or
    absent as the vendor has it, and its condition and image are those of
    that entry's own icon code. *)
Theorem daily_entries_are_copied data units weather i unified :
  transformResponse data units = Return weather ->
  WeatherData.daily weather !! i = Some unified ->
  exists block days day,
    PirateWeatherResponse.daily data = Some block
    /\ PirateWeatherResponse.data block = Some days
    /\ days !! i = Some day
    /\ i < 7
    /\ DailyWeather.date unified = new_Date (PirateWeatherDaily.time day * 1000)%float
    /\ DailyWeather.pressure unified = PirateWeatherDaily.pressure day
    /\ DailyWeather.windSpeed unified = PirateWeatherDaily.windSpeed day
    /\ DailyWeather.windGust unified = PirateWeatherDaily.windGust day
    /\ DailyWeather.windBearing unified = PirateWeatherDaily.windBearing day
    /\ DailyWeather.uvIndex unified = PirateWeatherDaily.uvIndex day
    /\ DailyWeather.conditionUnified unified
       = mapIconToCondition Weather_truthy (PirateWeatherDaily.icon day)
    /\ DailyWeather.icon unified = getIconUrl (PirateWeatherDaily.icon day).
Proof.
  transformResponse_cases data; intros [= <-]; cbn.
  rewrite list_lookup_fmap. intros Hentry.
  apply fmap_Some in Hentry as (day & Hday & ->).
  apply lookup_take_Some in Hday as [Hday Hi].
  exists block, days, day. by repeat split.
Qed.

End DailyEntries.

Lemma daily_entries_are_copied_witness :
  exists weather unified day,
    transformResponse Sample.Weather_truthy Sample.TypeError_message Sample.body "us"
    = Return weather
    /\ WeatherData.daily weather !! 4 = Some unified
    /\ Sample.days !! 4 = Some day
    /\ DailyWeather.windGust unified = PirateWeatherDaily.windGust day
    /\ DailyWeather.icon unified = getIconUrl (PirateWeatherDaily.icon day).
Proof.
  eexists. eexists.
  match goal with
  | |- exists day, ?transformed = Return ?weather /\ ?entry = Some ?unified /\ _ =>
      destruct (daily_entries_are_copied
                  Sample.Weather_truthy Sample.TypeError_message
                  Sample.body "us" weather 4 unified)
        as (block & days & day & Hblock & Hdays & Hday & _ & _ & _ & _
            & Hgust & _ & _ & _ & Hicon)
  end.
  - reflexivity.
  - reflexivity.
  - exists day. injection Hblock as <-. injection Hdays as <-.
    split; [reflexivity|]. split; [reflexivity|].
    split; [exact Hday|]. split; [exact Hgust|exact Hicon].
Defined.
